(** * swish: backend functions of the video-sharing application

    A shallow embedding of the two backend sources of the repository:

    - the video content service ([getVideo], [promisePiper], [uploadVideo],
      [deleteVideo]), an [async] TypeScript module talking to a document
      store, an object store and the HTTP API of a transcoder;
    - the callable cloud function [getChannels].

    JavaScript values are modelled by the small type [Js.value]; objects are
    finite maps from field names to values.  An [async] function is a state
    transformer over the external world that ends in the state of the promise
    it returns. *)

From Stdlib Require Import Ascii.
From stdpp Require Import gmap strings list fin_maps.


(** ** JavaScript values *)

Module Js.

(** The values that travel through the functions below: identifiers and
    document fields are strings; a field that is missing reads as
    [undefined]; the document store can also hold [null]. *)
Inductive value : Type :=
| undefined
| null
| str (s : string).

#[global] Instance value_eq_dec : EqDecision value.
Proof. solve_decision. Defined.

(** [`${v}`]: the rendering of a value inside a template literal. *)
Definition template (v : value) : string :=
  match v with
  | undefined => "undefined"
  | null => "null"
  | str s => s
  end.

(** [a == b], the loose equality of JavaScript on these values. *)
Definition loose_eq (a b : value) : bool :=
  match a, b with
  | str s, str t => bool_decide (s = t)
  | str _, _ | _, str _ => false
  | _, _ => true
  end.

(** [a != b] *)
Definition loose_neq (a b : value) : bool := negb (loose_eq a b).

(** [o.k]: reading a field of an object; an absent field is [undefined]. *)
Definition field (o : gmap string value) (k : string) : value :=
  default undefined (o !! k).

End Js.

Abbreviation JsObject := (gmap string Js.value).

(** ** Promises *)

(** Modelled from the spec: the error classes of [../../errors], a module
    outside the two sources embedded here; the constructors carry the
    arguments the calls in the service pass them.  [ExternalError] stands for a rejection raised
    inside a third-party client (storage, HTTP). *)
Inductive IError : Type :=
| ResourceNotFoundError (service resource id : string)
| AuthorizationError (service action : string)
| ExternalError (message : string).

#[global] Instance IError_eq_dec : EqDecision IError.
Proof. solve_decision. Defined.

(** The state a promise ends in.  [Pending] is a promise that never settles. *)
Inductive Promise (A : Type) : Type :=
| Fulfilled (a : A)
| Rejected (e : IError)
| Pending.

Arguments Fulfilled {A} a.
Arguments Rejected {A} e.
Arguments Pending {A}.

(** The two callbacks handed to the executor of [new Promise]: each settles a
    pending promise and leaves a settled one alone. *)
Definition resolve {A} (a : A) (p : Promise A) : Promise A :=
  match p with Pending => Fulfilled a | _ => p end.

Definition reject {A} (e : IError) (p : Promise A) : Promise A :=
  match p with Pending => Rejected e | _ => p end.

(** ** The external world of the video content service *)

(** Modelled from the spec: the type [tID] of [../../definitions], a module
    outside the two sources embedded here; identifiers are the strings spliced
    into document paths and URLs. *)
Definition tID : Type := string.

(** ** Document paths

    The document database is reached through its client:
    [firestoreInstance.doc(documentPath)] checks the path and turns it into
    a document reference before any request is made.  The path must be a
    non-empty string without [//]; it is cut at the slashes, empty segments
    (a leading or trailing slash) are dropped, and what is left must have an
    even, non-zero number of segments. *)

(** [s.split(sep)], with [cur] the segment read so far. *)
Fixpoint split_from (sep : Ascii.ascii) (cur s : string) : list string :=
  match s with
  | EmptyString => [cur]
  | String c s' =>
      if Ascii.eqb c sep then cur :: split_from sep EmptyString s'
      else split_from sep (cur +:+ String c EmptyString) s'
  end.

Definition splitOn (sep : Ascii.ascii) (s : string) : list string :=
  split_from sep EmptyString s.

(** [path.indexOf('//') >= 0] *)
Fixpoint hasDoubleSlash (s : string) : bool :=
  match s with
  | String c1 s' =>
      match s' with
      | String c2 _ => (Ascii.eqb c1 "/" && Ascii.eqb c2 "/") || hasDoubleSlash s'
      | EmptyString => false
      end
  | EmptyString => false
  end.

(** The segments of a path: [path.split('/').filter(s => s.length > 0)]. *)
Definition segments (path : string) : list string :=
  List.filter (fun seg => negb (String.eqb seg "")) (splitOn "/" path).

(** The document a path names, or the error with which the client refuses
    the path. *)
Definition docRef (documentPath : string) : IError + string :=
  if String.eqb documentPath "" then
    inl (ExternalError "Path must be a non-empty string.")
  else if hasDoubleSlash documentPath then
    inl (ExternalError "Paths must not contain //.")
  else
    let segs := segments documentPath in
    if (0 <? length segs) && Nat.even (length segs) then
      inr (String.concat "/" segs)
    else
      inl (ExternalError "Your path does not contain an even number of components.").

(** The path names a document. *)
Definition isDocumentPath (documentPath : string) : bool :=
  match docRef documentPath with inr _ => true | inl _ => false end.

(** A document reference: the path it was made from and the document it
    names. *)
Record DocumentReference : Type := { givenPath : string; document : string }.

(** The documents of the database, each under its name.  Looking a path up
    in the store, writing and deleting at a path go through the reference
    the client makes of the path; no document is found at a path the client
    refuses. *)
Record Firestore : Type := { documents : gmap string JsObject }.

#[global] Instance Firestore_empty : Empty Firestore := {| documents := ∅ |}.

#[global] Instance Firestore_lookup : Lookup string JsObject Firestore :=
  fun path fs =>
    match docRef path with
    | inr name => documents fs !! name
    | inl _ => None
    end.

#[global] Instance Firestore_insert : Insert string JsObject Firestore :=
  fun path fields fs =>
    match docRef path with
    | inr name => {| documents := <[name := fields]> (documents fs) |}
    | inl _ => fs
    end.

#[global] Instance Firestore_delete : Delete string Firestore :=
  fun path fs =>
    match docRef path with
    | inr name => {| documents := delete name (documents fs) |}
    | inl _ => fs
    end.

(** Modelled from the spec: [IServiceInvocationContext] of
    [../../definitions], a module outside the two sources embedded here; the
    service reads [context.auth.userID] and nothing else. *)
Record IAuth : Type := { userID : tID }.
Record IServiceInvocationContext : Type := { auth : IAuth }.

(** Events a Node stream emits. *)
Inductive StreamEvent : Type :=
| finish
| error (e : IError)
| close
| drain
| unpipe.

#[global] Instance StreamEvent_eq_dec : EqDecision StreamEvent.
Proof. solve_decision. Defined.

(** [NodeJS.ReadableStream]: the chunks the stream delivers. *)
Record ReadableStream : Type := { chunks : list string }.

(** An object of the object store. *)
Record StorageObject : Type := {
  body : list string;
  contentType : string;
  isPublic : bool
}.

(** [storageInstance.bucket(b).file(p)]: a handle, no request is made. *)
Record StorageFile : Type := { bucketName : string; fileName : string }.

(** The write stream of a storage file: where it writes, the metadata it was
    created with, and the events it emits once a source is piped into it. *)
Record WritableStream : Type := {
  target : StorageFile;
  metadataContentType : string;
  emits : list StreamEvent
}.

(** The [auth] part of an axios request configuration. *)
Record AxiosAuth : Type := { username : Js.value; password : Js.value }.

(** Body of the asset-creation request sent to the transcoder. *)
Record AssetRequest : Type := {
  input : string;
  playback_policy : list string;
  passthrough : tID
}.

(** Calls the service issues, in the order it issues them.  A call on a
    document carries the path as the service wrote it. *)
Inductive Call : Type :=
| DocGet (path : string)
| DocDelete (path : string)
| StreamPipe (dest : StorageFile) (mime : string)
| MakePublic (dest : StorageFile)
| AxiosPost (url : string) (data : AssetRequest) (config : AxiosAuth)
| AxiosDelete (url : string) (config : AxiosAuth).

#[global] Instance StorageFile_eq_dec : EqDecision StorageFile.
Proof. solve_decision. Defined.
#[global] Instance AxiosAuth_eq_dec : EqDecision AxiosAuth.
Proof. solve_decision. Defined.
#[global] Instance AssetRequest_eq_dec : EqDecision AssetRequest.
Proof. solve_decision. Defined.
#[global] Instance Call_eq_dec : EqDecision Call.
Proof. solve_decision. Defined.

(** What lies outside the code: the process environment and the behaviour of
    the managed services on the requests made to them. *)
Record Env : Type := {
  MUXID : Js.value;
  MUXSECRET : Js.value;
  (** events the write stream of a storage file emits during an upload *)
  writeStreamEmits : StorageFile -> list StreamEvent;
  (** the error with which the object store refuses [makePublic], if any *)
  makePublicFails : StorageFile -> option IError;
  (** the error with which an HTTP request fails, if any *)
  postFails : string -> option IError;
  deleteFails : string -> option IError;
  (** the id the transcoder gives the asset it creates for a request *)
  assetCreated : AssetRequest -> string
}.

(** The state of the managed services, and the calls made so far. *)
Record World : Type := {
  firestore : Firestore;                      (* the document database *)
  storage : gmap (string * string) StorageObject; (* (bucket, file) -> object *)
  muxAssets : gset string;                    (* asset ids of the transcoder *)
  muxRequests : list AssetRequest;            (* assets requested by POST *)
  calls : list Call
}.

Definition set_firestore (f : Firestore) (w : World) : World :=
  {| firestore := f; storage := storage w; muxAssets := muxAssets w;
     muxRequests := muxRequests w; calls := calls w |}.
Definition set_storage (s : gmap (string * string) StorageObject) (w : World) : World :=
  {| firestore := firestore w; storage := s; muxAssets := muxAssets w;
     muxRequests := muxRequests w; calls := calls w |}.
Definition set_muxAssets (a : gset string) (w : World) : World :=
  {| firestore := firestore w; storage := storage w; muxAssets := a;
     muxRequests := muxRequests w; calls := calls w |}.
Definition set_muxRequests (r : list AssetRequest) (w : World) : World :=
  {| firestore := firestore w; storage := storage w; muxAssets := muxAssets w;
     muxRequests := r; calls := calls w |}.
Definition record (c : Call) (w : World) : World :=
  {| firestore := firestore w; storage := storage w; muxAssets := muxAssets w;
     muxRequests := muxRequests w; calls := calls w ++ [c] |}.

(** ** Async functions *)

(** An [async] function runs against the world and returns a promise. *)
Definition Async (A : Type) : Type := World -> Promise A * World.

(** [return a] *)
Definition async_ret {A} (a : A) : Async A := fun w => (Fulfilled a, w).

(** [const x = await m; k x]: the continuation runs only once [m] is
    fulfilled; a rejection is rethrown, a pending promise is waited on
    for ever. *)
Definition await {A B} (m : Async A) (k : A -> Async B) : Async B :=
  fun w =>
    match m w with
    | (Fulfilled a, w') => k a w'
    | (Rejected e, w') => (Rejected e, w')
    | (Pending, w') => (Pending, w')
    end.

(** [throw e] *)
Definition throw {A} (e : IError) : Async A := fun w => (Rejected e, w).

Definition modify (f : World -> World) : Async unit := fun w => (Fulfilled tt, f w).
Definition reads {A} (f : World -> A) : Async A := fun w => (Fulfilled (f w), w).

#[global] Instance Async_ret : MRet Async := @async_ret.
#[global] Instance Async_bind : MBind Async := fun A B k m => await m k.

(** ** The video content service *)

Section VideoContentService.

(** The services and the process environment the module runs against. *)
Variable env : Env.

(** [VideoDataService.getVideo] belongs to a sibling service, outside the two
    sources embedded here: it is a parameter, an arbitrary async function
    returning the video record of [id]. *)
Variable VideoDataService_getVideo :
  IServiceInvocationContext -> tID -> Async JsObject.

(** *** Primitives of the client libraries *)

(** [firestoreInstance.doc(documentPath)]: a path the client refuses throws,
    before any request. *)
Definition doc (documentPath : string) : Async DocumentReference :=
  match docRef documentPath with
  | inr name => mret {| givenPath := documentPath; document := name |}
  | inl e => throw e
  end.

(** [contentDoc.get()]: the snapshot is the stored document, if there is one
    ([snapshot.exists]). *)
Definition doc_get (ref : DocumentReference) : Async (option JsObject) :=
  fun w =>
    (Fulfilled (documents (firestore w) !! document ref),
     record (DocGet (givenPath ref)) w).

(** [contentDoc.delete()]: deleting a missing document succeeds and changes
    nothing. *)
Definition doc_delete (ref : DocumentReference) : Async unit :=
  fun w =>
    let w1 := record (DocDelete (givenPath ref)) w in
    (Fulfilled tt,
     set_firestore
       {| documents := delete (document ref) (documents (firestore w1)) |} w1).

(** [storageInstance.bucket(b).file(p)] *)
Definition bucket_file (b p : string) : StorageFile :=
  {| bucketName := b; fileName := p |}.

Definition storage_key (f : StorageFile) : string * string :=
  (bucketName f, fileName f).

(** [file.createWriteStream({ metadata: { contentType: mime } })] *)
Definition createWriteStream (f : StorageFile) (mime : string) : WritableStream :=
  {| target := f; metadataContentType := mime; emits := writeStreamEmits env f |}.

(** [readStream.pipe(writeStream)]: the upload is requested; the object is in
    the store once the write stream has finished. *)
Definition pipe (readStream : ReadableStream) (writeStream : WritableStream)
  : World -> World :=
  fun w =>
    let w1 := record (StreamPipe (target writeStream) (metadataContentType writeStream)) w in
    if bool_decide (finish ∈ emits writeStream) then
      set_storage
        (<[storage_key (target writeStream) :=
             {| body := chunks readStream;
                contentType := metadataContentType writeStream;
                isPublic := false |}]> (storage w1)) w1
    else w1.

(** The listeners registered on an emitter, per event. *)
Definition Listeners (A : Type) : Type := StreamEvent -> list (Promise A -> Promise A).

(** [emitter.emit(ev)]: the listeners of [ev] run in order. *)
Definition emit {A} (on : Listeners A) (p : Promise A) (ev : StreamEvent) : Promise A :=
  foldl (fun q listener => listener q) p (on ev).

(** The promise after the emitter has emitted [evs]. *)
Definition settle {A} (on : Listeners A) (evs : list StreamEvent) : Promise A :=
  foldl (emit on) Pending evs.

(** [storageObject.makePublic()] *)
Definition makePublic (f : StorageFile) : Async unit :=
  fun w =>
    let w1 := record (MakePublic f) w in
    match makePublicFails env f with
    | Some e => (Rejected e, w1)
    | None =>
        match storage w1 !! storage_key f with
        | None => (Rejected (ExternalError "No such object"), w1)
        | Some o =>
            (Fulfilled tt,
             set_storage
               (<[storage_key f :=
                    {| body := body o; contentType := contentType o;
                       isPublic := true |}]> (storage w1)) w1)
        end
    end.

(** [axios.post(url, data, { auth })]: the transcoder files the request and
    creates an asset for it. *)
Definition axios_post (url : string) (data : AssetRequest) (config : AxiosAuth)
  : Async unit :=
  fun w =>
    let w1 := record (AxiosPost url data config) w in
    match postFails env url with
    | Some e => (Rejected e, w1)
    | None =>
        (Fulfilled tt,
         set_muxAssets ({[ assetCreated env data ]} ∪ muxAssets w1)
           (set_muxRequests (muxRequests w1 ++ [data]) w1))
    end.

(** URL of an asset of the transcoder. *)
Definition assetURL (assetID : string) : string :=
  "https://api.mux.com/video/v1/assets/" +:+ assetID.

(** [axios.delete(url, { auth })]: the asset the URL names is gone from the
    transcoder. *)
Definition axios_delete (url : string) (config : AxiosAuth) : Async unit :=
  fun w =>
    let w1 := record (AxiosDelete url config) w in
    match deleteFails env url with
    | Some e => (Rejected e, w1)
    | None =>
        (Fulfilled tt,
         set_muxAssets (filter (fun a => assetURL a <> url) (muxAssets w1)) w1)
    end.

(** [{ username: process.env.MUXID, password: process.env.MUXSECRET }] *)
Definition muxAuth : AxiosAuth :=
  {| username := MUXID env; password := MUXSECRET env |}.

(** *** The exported functions *)

(** [getVideo(context, id)]: retrieves a content record. *)
Definition getVideo (context : IServiceInvocationContext) (id : tID)
  : Async JsObject :=
  contentDoc ← doc ("content/" +:+ id);
  contentDocSnap ← doc_get contentDoc;
  match contentDocSnap with
  | None => throw (ResourceNotFoundError "VideoContent" "videoContent" id)
  | Some contentData =>
      mret (<["id" := Js.str id]>
            (<["assetID" := Js.field contentData "assetID"]>
             (<["playbackID" := Js.field contentData "playbackID"]> ∅)))
  end.

(** The listeners [promisePiper] registers on the write stream:
    [writeStream.on('finish', () => { resolve(); })]. *)
Definition promisePiper_on : Listeners unit :=
  fun ev => match ev with finish => [resolve tt] | _ => [] end.

(** [promisePiper(readStream, writeStream)]: the executor pipes the streams
    and registers the listener; the promise is what the events of the write
    stream make of it. *)
Definition promisePiper (readStream : ReadableStream) (writeStream : WritableStream)
  : Async unit :=
  fun w => (settle promisePiper_on (emits writeStream), pipe readStream writeStream w).

(** [uploadVideo(context, id, fileStream, mime)] *)
Definition uploadVideo (context : IServiceInvocationContext) (id : tID)
    (fileStream : ReadableStream) (mime : string) : Async unit :=
  video ← VideoDataService_getVideo context id;
  if Js.loose_neq (Js.str (userID (auth context))) (Js.field video "author") then
    throw (AuthorizationError "VideoContent" "upload video data")
  else
    let path := "masters/" +:+ userID (auth context) +:+ "/" +:+ id in
    let storageObject := bucket_file "meteor-videos" path in
    let storageWritestream := createWriteStream storageObject mime in
    promisePiper fileStream storageWritestream;;
    makePublic storageObject;;
    axios_post "https://api.mux.com/video/v1/assets"
      {| input := "https://storage.googleapis.com/meteor-videos/" +:+ path;
         playback_policy := ["public"];
         passthrough := id |}
      muxAuth.

(** [deleteVideo(context, id)] *)
Definition deleteVideo (context : IServiceInvocationContext) (id : tID)
  : Async unit :=
  contentRecord ← getVideo context id;
  axios_delete
    ("https://api.mux.com/video/v1/assets/"
       +:+ Js.template (Js.field contentRecord "assetID"))
    muxAuth;;
  contentDoc ← doc "content/id";
  doc_delete contentDoc.

End VideoContentService.

(** ** The callable function [getChannels] *)

Module GetChannels.

(** [functions.https.HttpsError(code, message)] *)
Record HttpsError : Type := { code : string; message : string }.

#[global] Instance HttpsError_eq_dec : EqDecision HttpsError.
Proof. solve_decision. Defined.

(** The context of a callable function: [context.auth] is [undefined] on a
    call that carries no authentication, and holds the uid of the caller
    otherwise. *)
Record CallableContext : Type := { auth : option string }.

(** A query of the document database: [collection(c)], narrowed by
    [where(field, '==', value)] and [limit(n)]. *)
Record Query : Type := {
  from : string;
  wheres : list (string * Js.value);
  limitTo : option nat
}.

Definition collection (c : string) : Query :=
  {| from := c; wheres := []; limitTo := None |}.

Definition where_eq (field : string) (v : Js.value) (q : Query) : Query :=
  {| from := from q; wheres := wheres q ++ [(field, v)]; limitTo := limitTo q |}.

Definition limit (n : nat) (q : Query) : Query :=
  {| from := from q; wheres := wheres q; limitTo := Some n |}.

(** The managed services behind the function: the accounts of the
    authentication service, and the collections of the database, each with
    its documents (name and fields) in the order queries return them. *)
Record Firebase : Type := {
  users : gset string;
  db : gmap string (list (string * JsObject))
}.

(** Requests the function makes, in order. *)
Inductive Request : Type :=
| GetUser (uid : Js.value)
| QueryGet (q : Query).

(** [admin.auth().getUser(uid)] resolves with the account when [uid] is the
    identifier of one, and rejects otherwise (also when [uid] is no string). *)
Definition getUser (fb : Firebase) (uid : Js.value) : option string :=
  match uid with
  | Js.str u => if bool_decide (u ∈ users fb) then Some u else None
  | _ => None
  end.

(** A document satisfies [where(field, '==', v)] when it has the field, with
    that value. *)
Definition satisfies (fields : JsObject) (cond : string * Js.value) : bool :=
  bool_decide (fields !! cond.1 = Some cond.2).

Definition matches (q : Query) (d : string * JsObject) : bool :=
  forallb (satisfies d.2) (wheres q).

(** [query.get()]: the documents of the snapshot ([querySnapshot.docs]). *)
Definition query_get (fb : Firebase) (q : Query) : list (string * JsObject) :=
  let found := List.filter (matches q) (default [] (db fb !! from q)) in
  match limitTo q with
  | Some n => take n found
  | None => found
  end.

(** How a call ends: with the value returned to the caller, or with the
    error thrown to it. *)
Inductive Outcome : Type :=
| Returns (channels : list JsObject)
| Throws (e : HttpsError).

(** [getChannels]: the handler given to [functions.https.onCall], with the
    requests it made. *)
Definition getChannels (fb : Firebase) (data : JsObject) (context : CallableContext)
  : Outcome * list Request :=
  match auth context with
  | None =>
      (Throws {| code := "unauthenticated";
                 message := "User must be authenticated to make this request" |},
       [])
  | Some _ =>
      (* Check User *)
      let user := Js.field data "user" in
      match getUser fb user with
      | None =>
          (Throws {| code := "invalid-argument";
                     message := "User could not found" |},
           [GetUser user])
      | Some _ =>
          let query := limit 100 (where_eq "owner" user (collection "channels")) in
          let querySnapshot := query_get fb query in
          let channels := map snd querySnapshot in
          (Returns channels, [GetUser user; QueryGet query])
      end
  end.

(** The call fails with an error of category [c]. *)
Definition fails_with (c : string) (r : Outcome * list Request) : Prop :=
  exists m, r.1 = Throws {| code := c; message := m |}.

(** The identifier names an account of the authentication service. *)
Definition resolves (fb : Firebase) (user : Js.value) : Prop :=
  exists u, user = Js.str u /\ u ∈ users fb.


(** *** The handler with its other failures

    [getChannels] above is the handler on a call that carries a data object,
    run against services that answer.  [getChannelsWith] is the handler in
    full: [data] may be [null], in which case reading [data.user] throws;
    the lookup of the user may be rejected for any reason, and whatever the
    reason the [catch] reports it as [invalid-argument]; the awaited
    [query.get()] may be rejected, and nothing catches it. *)

(** The data of a call: [null] when the client sent none, an object
    otherwise. *)
Inductive CallData : Type :=
| no_data
| object_data (fields : JsObject).

(** What the managed services do to the requests of one call besides
    answering them: the authentication service may reject the lookup of any
    user, the database may reject the query. *)
Record Faults : Type := {
  getUserRejected : bool;
  queryRejected : option string
}.

Definition noFaults : Faults :=
  {| getUserRejected := false; queryRejected := None |}.

(** What the handler throws: an [HttpsError] of its own, the [TypeError] of
    a member access on [null], or the error of the rejected query. *)
Inductive Thrown : Type :=
| Categorized (e : HttpsError)
| TypeError (message : string)
| QueryError (message : string).

Inductive Completion : Type :=
| Returned (channels : list JsObject)
| Raised (t : Thrown).

Definition getChannelsWith (faults : Faults) (fb : Firebase) (data : CallData)
    (context : CallableContext) : Completion * list Request :=
  match auth context with
  | None =>
      (Raised (Categorized
                 {| code := "unauthenticated";
                    message := "User must be authenticated to make this request" |}),
       [])
  | Some _ =>
      (* Check User *)
      match data with
      | no_data => (Raised (TypeError "Cannot read property 'user' of null"), [])
      | object_data fields =>
          let user := Js.field fields "user" in
          match (if getUserRejected faults then None else getUser fb user) with
          | None =>
              (Raised (Categorized
                         {| code := "invalid-argument";
                            message := "User could not found" |}),
               [GetUser user])
          | Some _ =>
              let query := limit 100 (where_eq "owner" user (collection "channels")) in
              match queryRejected faults with
              | Some m => (Raised (QueryError m), [GetUser user; QueryGet query])
              | None =>
                  let querySnapshot := query_get fb query in
                  let channels := map snd querySnapshot in
                  (Returned channels, [GetUser user; QueryGet query])
              end
          end
      end
  end.

(** The call fails with an [HttpsError] of category [c]. *)
Definition raises (c : string) (r : Completion * list Request) : Prop :=
  exists m, r.1 = Raised (Categorized {| code := c; message := m |}).

(** The completion of the handler on a data object and answering services. *)
Definition completion (o : Outcome) : Completion :=
  match o with
  | Returns channels => Returned channels
  | Throws e => Raised (Categorized e)
  end.

End GetChannels.

(** ** Vocabulary of the properties, and sample worlds *)

(** The calls made between two states of the world. *)
Definition issued (w w' : World) : list Call := drop (length (calls w)) (calls w').


(** One video, [v1], uploaded by [alice]: its data record, its content record
    and its asset at the transcoder. *)
Definition v1Content : JsObject :=
  <["assetID" := Js.str "a1"]>
    (<["playbackID" := Js.str "p1"]> (<["author" := Js.str "alice"]> ∅)).

Definition v1World : World :=
  {| firestore :=
       <["content/v1" := v1Content]>
         (<["videos/v1" := <["author" := Js.str "alice"]> ∅]> ∅);
     storage := ∅;
     muxAssets := {["a1"]};
     muxRequests := [];
     calls := [] |}.

(** Services that answer every request. *)
Definition goodEnv : Env :=
  {| MUXID := Js.str "mux-id";
     MUXSECRET := Js.str "mux-secret";
     writeStreamEmits := fun _ => [drain; finish; close];
     makePublicFails := fun _ => None;
     postFails := fun _ => None;
     deleteFails := fun _ => None;
     assetCreated := fun r => "asset-of-" +:+ passthrough r |}.

(** An object store that refuses to change the visibility of objects. *)
Definition privateEnv : Env :=
  {| MUXID := Js.str "mux-id";
     MUXSECRET := Js.str "mux-secret";
     writeStreamEmits := fun _ => [drain; finish; close];
     makePublicFails := fun _ => Some (ExternalError "403");
     postFails := fun _ => None;
     deleteFails := fun _ => None;
     assetCreated := fun r => "asset-of-" +:+ passthrough r |}.

(** A stand-in for [VideoDataService.getVideo], used to run the service on
    the sample worlds: the video record is the document [videos/{id}]. *)
Definition sampleVideoData (context : IServiceInvocationContext) (id : tID)
  : Async JsObject :=
  fun w =>
    match firestore w !! ("videos/" +:+ id) with
    | Some d => (Fulfilled (<["id" := Js.str id]> d), w)
    | None => (Rejected (ResourceNotFoundError "VideoData" "video" id), w)
    end.

Definition alice : IServiceInvocationContext := {| auth := {| userID := "alice" |} |}.
Definition mallory : IServiceInvocationContext := {| auth := {| userID := "mallory" |} |}.

Definition clip : ReadableStream := {| chunks := ["abc"; "def"] |}.

(** [masters/${context.auth.userID}/${id}] in the bucket of the masters. *)
Definition uploadFile (context : IServiceInvocationContext) (id : tID) : StorageFile :=
  bucket_file "meteor-videos" ("masters/" +:+ userID (auth context) +:+ "/" +:+ id).

(** The body of the request [uploadVideo] posts to the transcoder. *)
Definition transcodeRequest (context : IServiceInvocationContext) (id : tID) : AssetRequest :=
  {| input := "https://storage.googleapis.com/meteor-videos/"
                +:+ ("masters/" +:+ userID (auth context) +:+ "/" +:+ id);
     playback_policy := ["public"];
     passthrough := id |}.

Definition transcodeCall (env : Env) (context : IServiceInvocationContext) (id : tID) : Call :=
  AxiosPost "https://api.mux.com/video/v1/assets" (transcodeRequest context id) (muxAuth env).

(** The stored object of an upload, before and after it is made public. *)
Definition uploaded (fs : ReadableStream) (mime : string) (public : bool) : StorageObject :=
  {| body := chunks fs; contentType := mime; isPublic := public |}.

(** The steps of an upload that follow the ownership check. *)
Definition uploadSteps (env : Env) (context : IServiceInvocationContext) (id : tID)
    (mime : string) : list Call :=
  [StreamPipe (uploadFile context id) mime;
   MakePublic (uploadFile context id);
   transcodeCall env context id].

(** The world once [deleteVideo] has fetched the record [contentData] of
    [id] and the transcoder has answered the request to delete its asset. *)
Definition afterRemoteDelete (env : Env) (id : tID) (contentData : JsObject)
    (w : World) : World :=
  let url := assetURL (Js.template (Js.field contentData "assetID")) in
  let w1 := record (AxiosDelete url (muxAuth env)) (record (DocGet ("content/" +:+ id)) w) in
  set_muxAssets (filter (fun a => assetURL a <> url) (muxAssets w1)) w1.

(** Sample services: two accounts and three channels. *)
Definition channel (owner name : string) : JsObject :=
  <["owner" := Js.str owner]> (<["name" := Js.str name]> ∅).

Definition sampleFirebase : GetChannels.Firebase :=
  {| GetChannels.users := {[ "u1"; "u2" ]};
     GetChannels.db :=
       <["channels" := [("c1", channel "u1" "first");
                        ("c2", channel "u2" "second");
                        ("c3", channel "u1" "third")]]> ∅ |}.

Definition askFor (user : string) : JsObject := <["user" := Js.str user]> ∅.

Definition signedIn (uid : string) : GetChannels.CallableContext :=
  {| GetChannels.auth := Some uid |}.
Definition anonymous : GetChannels.CallableContext :=
  {| GetChannels.auth := None |}.

(** A database with [n] channels, all owned by [u1]. *)
Definition crowded (n : nat) : GetChannels.Firebase :=
  {| GetChannels.users := {[ "u1" ]};
     GetChannels.db := <["channels" := replicate n ("c", channel "u1" "again")]> ∅ |}.

(** An object store whose write streams fail before they finish. *)
Definition brokenUploadEnv : Env :=
  {| MUXID := Js.str "mux-id";
     MUXSECRET := Js.str "mux-secret";
     writeStreamEmits := fun _ => [drain; error (ExternalError "ECONNRESET"); close];
     makePublicFails := fun _ => None;
     postFails := fun _ => None;
     deleteFails := fun _ => None;
     assetCreated := fun r => "asset-of-" +:+ passthrough r |}.

(** A transcoder that refuses every request. *)
Definition muxDownEnv : Env :=
  {| MUXID := Js.str "mux-id";
     MUXSECRET := Js.str "mux-secret";
     writeStreamEmits := fun _ => [drain; finish; close];
     makePublicFails := fun _ => None;
     postFails := fun _ => Some (ExternalError "503");
     deleteFails := fun _ => Some (ExternalError "503");
     assetCreated := fun r => "asset-of-" +:+ passthrough r |}.

(** A content record that was never given an asset. *)
Definition draftWorld : World :=
  {| firestore := <["content/v3" := <["title" := Js.str "draft"]> ∅]> ∅;
     storage := ∅;
     muxAssets := {["a1"]};
     muxRequests := [];
     calls := [] |}.

(** The string contains the path separator. *)
Fixpoint hasSlash (s : string) : bool :=
  match s with
  | EmptyString => false
  | String c s' => if Ascii.eqb c "/"%char then true else hasSlash s'
  end.


(** A stand-in for [VideoDataService.getVideo] that knows one author for
    every video and touches nothing. *)
Definition videosOf (author : string) (context : IServiceInvocationContext) (id : tID)
  : Async JsObject :=
  fun w => (Fulfilled (<["id" := Js.str id]> (<["author" := Js.str author]> ∅)), w).

(** A video whose id is the string [id], with its asset. *)
Definition idWorld : World :=
  {| firestore := <["content/id" := <["assetID" := Js.str "a1"]> ∅]> ∅;
     storage := ∅;
     muxAssets := {["a1"]};
     muxRequests := [];
     calls := [] |}.

(** ** Properties of the video content service *)

(** A conjunction of facts, one conjunct at a time. *)
Ltac splits := repeat match goal with |- _ /\ _ => split end.

Lemma loose_neq_str (s : string) (v : Js.value) :
  Js.loose_neq (Js.str s) v = true <-> v <> Js.str s.
Proof.
  unfold Js.loose_neq, Js.loose_eq. destruct v as [| |t]; simpl.
  - split; [discriminate | reflexivity].
  - split; [discriminate | reflexivity].
  - case_bool_decide; simpl; split; intros; try congruence.
Qed.

Lemma issued_record (w : World) (cs : list Call) (w' : World) :
  calls w' = calls w ++ cs -> issued w w' = cs.
Proof.
  intros E. unfold issued. rewrite E. by rewrite drop_app_length.
Qed.

(** *** Document paths *)

Lemma append_cons (c : Ascii.ascii) (s t : string) :
  String c s +:+ t = String c (s +:+ t).
Proof. reflexivity. Qed.

Lemma append_snoc (s : string) (c : Ascii.ascii) (t : string) :
  (s +:+ String c EmptyString) +:+ t = s +:+ String c t.
Proof.
  induction s as [|c' s IH]; [reflexivity |].
  rewrite !append_cons. by rewrite IH.
Qed.

Lemma split_from_plain (cur s : string) :
  hasSlash s = false -> split_from "/" cur s = [cur +:+ s].
Proof.
  revert cur. induction s as [|c s IH]; intros cur Hs.
  - cbn [split_from]. f_equal. induction cur as [|c' cur IHc]; [reflexivity |].
    rewrite append_cons. by rewrite <- IHc.
  - cbn [hasSlash] in Hs. cbn [split_from].
    destruct (Ascii.eqb c "/"); [discriminate |].
    rewrite (IH _ Hs). by rewrite append_snoc.
Qed.

Lemma hasDoubleSlash_plain (s : string) :
  hasSlash s = false -> hasDoubleSlash s = false.
Proof.
  induction s as [|c s IH]; [reflexivity |].
  cbn [hasSlash]. destruct (Ascii.eqb c "/") eqn:Hc; [discriminate |].
  intros Hs. cbn [hasDoubleSlash]. destruct s as [|c2 s]; [reflexivity |].
  rewrite Hc. cbn [andb orb]. by apply IH.
Qed.

(** The path of the content record of an identifier without [/]: the client
    takes it as it is, unless the identifier is empty. *)
Lemma docRef_plain_id (id : string) :
  id <> "" -> hasSlash id = false ->
  docRef ("content/" +:+ id) = inr ("content/" +:+ id).
Proof.
  intros Hne Hs. unfold docRef.
  change (String.eqb ("content/" +:+ id) "") with false. cbv iota.
  assert (Hd : hasDoubleSlash ("content/" +:+ id) = false).
  { change (hasDoubleSlash ("content/" +:+ id))
      with (match id with
            | String c2 _ => (true && Ascii.eqb c2 "/") || hasDoubleSlash id
            | EmptyString => false
            end).
    destruct id as [|c id]; [done |].
    rewrite (hasDoubleSlash_plain _ Hs).
    cbn [hasSlash] in Hs. destruct (Ascii.eqb c "/"); [discriminate | done]. }
  rewrite Hd. cbv iota zeta.
  assert (Hseg : segments ("content/" +:+ id) = ["content"; id]).
  { unfold segments, splitOn.
    change (split_from "/" "" ("content/" +:+ id))
      with ("content" :: split_from "/" "" id).
    rewrite (split_from_plain "" id Hs).
    change ("" +:+ id) with id. cbn [List.filter].
    change (String.eqb "content" "") with false. cbn [negb].
    destruct id as [|c id]; [done | reflexivity]. }
  rewrite Hseg. reflexivity.
Qed.

Lemma docRef_content_id : docRef "content/id" = inr "content/id".
Proof. reflexivity. Qed.

(** *** The store *)

Lemma firestore_lookup (fs : Firestore) (path : string) :
  fs !! path =
    match docRef path with
    | inr name => documents fs !! name
    | inl _ => None
    end.
Proof. reflexivity. Qed.

Lemma firestore_lookup_delete (fs : Firestore) (path : string) :
  delete "content/id" fs !! path =
    if bool_decide (docRef path = inr "content/id") then None else fs !! path.
Proof.
  rewrite !firestore_lookup.
  change (documents (delete "content/id" fs))
    with (delete "content/id" (documents fs)).
  destruct (docRef path) as [e|name] eqn:E.
  - by case_bool_decide.
  - case_bool_decide as Hn.
    + injection Hn as ->. apply lookup_delete_eq.
    + apply lookup_delete_ne. congruence.
Qed.

(** *** Fetching a content record *)

Lemma getVideo_refused (ctx : IServiceInvocationContext) (id : tID) (w : World)
    (e : IError) :
  docRef ("content/" +:+ id) = inl e ->
  getVideo ctx id w = (Rejected e, w).
Proof.
  intros E. unfold getVideo, mbind, Async_bind, await, doc. by rewrite E.
Qed.

Lemma getVideo_missing (ctx : IServiceInvocationContext) (id : tID) (w : World) :
  isDocumentPath ("content/" +:+ id) = true ->
  firestore w !! ("content/" +:+ id) = None ->
  getVideo ctx id w =
    (Rejected (ResourceNotFoundError "VideoContent" "videoContent" id),
     record (DocGet ("content/" +:+ id)) w).
Proof.
  unfold isDocumentPath. rewrite firestore_lookup.
  intros Hdoc E. unfold getVideo, mbind, Async_bind, await, doc.
  destruct (docRef ("content/" +:+ id)) as [e|name]; [discriminate |].
  unfold mret, Async_ret, async_ret, doc_get. cbn [document givenPath].
  by rewrite E.
Qed.

Lemma getVideo_found (ctx : IServiceInvocationContext) (id : tID) (w : World)
    (contentData : JsObject) :
  firestore w !! ("content/" +:+ id) = Some contentData ->
  getVideo ctx id w =
    (Fulfilled (<["id" := Js.str id]>
                (<["assetID" := Js.field contentData "assetID"]>
                 (<["playbackID" := Js.field contentData "playbackID"]> ∅))),
     record (DocGet ("content/" +:+ id)) w).
Proof.
  rewrite firestore_lookup.
  intros E. unfold getVideo, mbind, Async_bind, await, doc.
  destruct (docRef ("content/" +:+ id)) as [e|name]; [discriminate |].
  unfold mret, Async_ret, async_ret, doc_get. cbn [document givenPath].
  by rewrite E.
Qed.

(** A document found at a path: the path names a document. *)
Lemma found_isDocumentPath (fs : Firestore) (path : string) (d : JsObject) :
  fs !! path = Some d -> isDocumentPath path = true.
Proof.
  rewrite firestore_lookup. unfold isDocumentPath.
  by destruct (docRef path).
Qed.

(** The three ways the path of a content record can stand in the store. *)
Lemma content_cases (w : World) (id : tID) :
  (exists e, docRef ("content/" +:+ id) = inl e)
  \/ (isDocumentPath ("content/" +:+ id) = true
      /\ firestore w !! ("content/" +:+ id) = None)
  \/ (exists contentData, firestore w !! ("content/" +:+ id) = Some contentData).
Proof.
  rewrite firestore_lookup. unfold isDocumentPath.
  destruct (docRef ("content/" +:+ id)) as [e|name]; [left; by exists e |].
  right. destruct (documents (firestore w) !! name) as [d|]; [right; by exists d | by left].
Qed.

(** The outcomes of [deleteVideo]: the path is refused; there is no record;
    the record exists and the transcoder request fails, or it is answered
    and the local deletion follows. *)
Lemma deleteVideo_refused (env : Env) (ctx : IServiceInvocationContext) (id : tID)
    (w : World) (e : IError) :
  docRef ("content/" +:+ id) = inl e ->
  deleteVideo env ctx id w = (Rejected e, w).
Proof.
  intros E. unfold deleteVideo, mbind, Async_bind, await.
  by rewrite (getVideo_refused ctx id w e E).
Qed.

Lemma deleteVideo_missing (env : Env) (ctx : IServiceInvocationContext) (id : tID)
    (w : World) :
  isDocumentPath ("content/" +:+ id) = true ->
  firestore w !! ("content/" +:+ id) = None ->
  deleteVideo env ctx id w =
    (Rejected (ResourceNotFoundError "VideoContent" "videoContent" id),
     record (DocGet ("content/" +:+ id)) w).
Proof.
  intros Hdoc E. unfold deleteVideo, mbind, Async_bind, await.
  by rewrite (getVideo_missing ctx id w Hdoc E).
Qed.

Lemma deleteVideo_found (env : Env) (ctx : IServiceInvocationContext) (id : tID)
    (w : World) (contentData : JsObject) :
  firestore w !! ("content/" +:+ id) = Some contentData ->
  deleteVideo env ctx id w =
    let url := assetURL (Js.template (Js.field contentData "assetID")) in
    match deleteFails env url with
    | Some e =>
        (Rejected e,
         record (AxiosDelete url (muxAuth env)) (record (DocGet ("content/" +:+ id)) w))
    | None =>
        let w3 := record (DocDelete "content/id") (afterRemoteDelete env id contentData w) in
        (Fulfilled tt, set_firestore (delete "content/id" (firestore w3)) w3)
    end.
Proof.
  intros E. unfold deleteVideo, mbind, Async_bind, await.
  rewrite (getVideo_found ctx id w contentData E).
  assert (F : Js.field
                (<["id" := Js.str id]>
                 (<["assetID" := Js.field contentData "assetID"]>
                  (<["playbackID" := Js.field contentData "playbackID"]> ∅)))
                "assetID" = Js.field contentData "assetID").
  { unfold Js.field at 1. rewrite lookup_insert_ne by done.
    by rewrite lookup_insert_eq. }
  rewrite F. unfold axios_delete, afterRemoteDelete, assetURL. cbv zeta.
  destruct (deleteFails env _); reflexivity.
Qed.

Lemma deleteVideo_ignores_caller (env : Env) (c1 c2 : IServiceInvocationContext)
    (id : tID) (w : World) :
  deleteVideo env c1 id w = deleteVideo env c2 id w.
Proof. reflexivity. Qed.

(** C4 as stated does not hold: for the empty id no document exists at
    [content/], yet [getVideo] does not fail with [ResourceNotFoundError]:
    the client refuses the path, and its error is what the caller gets. *)
Lemma getVideo_empty_id_refused :
  firestore v1World !! ("content/" +:+ "") = None
  /\ getVideo alice "" v1World
     = (Rejected (ExternalError "Your path does not contain an even number of components."),
        v1World)
  /\ (getVideo alice "" v1World).1
     <> Rejected (ResourceNotFoundError "VideoContent" "videoContent" "").
Proof.
  splits; [reflexivity | reflexivity |].
  rewrite (getVideo_refused alice "" v1World _ eq_refl). discriminate.
Qed.

(** C4, amended: for every id such that [content/{id}] is a document path
    (as it is for every non-empty id without [/]) at which no document
    exists, [getVideo] is rejected with [ResourceNotFoundError] and so
    returns no record; [deleteVideo], which fetches first, is rejected with
    the same error, having made no call but the fetch and having left every
    service as it was.  For an id whose path the client refuses, both are
    rejected with the error of the client, no request made. *)
Theorem getVideo_not_found (env : Env) (ctx : IServiceInvocationContext)
    (id : tID) (w : World) :
  (isDocumentPath ("content/" +:+ id) = true ->
   firestore w !! ("content/" +:+ id) = None ->
   (getVideo ctx id w).1 =
     Rejected (ResourceNotFoundError "VideoContent" "videoContent" id)
   /\ deleteVideo env ctx id w =
        (Rejected (ResourceNotFoundError "VideoContent" "videoContent" id),
         record (DocGet ("content/" +:+ id)) w))
  /\ (id <> "" -> hasSlash id = false -> isDocumentPath ("content/" +:+ id) = true)
  /\ (isDocumentPath ("content/" +:+ id) = false ->
      exists e, docRef ("content/" +:+ id) = inl e
                /\ getVideo ctx id w = (Rejected e, w)
                /\ deleteVideo env ctx id w = (Rejected e, w)).
Proof.
  splits.
  - intros Hdoc E. split.
    + by rewrite (getVideo_missing ctx id w Hdoc E).
    + by apply deleteVideo_missing.
  - intros Hne Hs. unfold isDocumentPath. by rewrite (docRef_plain_id id Hne Hs).
  - unfold isDocumentPath. destruct (docRef ("content/" +:+ id)) as [e|name] eqn:E;
      [| discriminate].
    intros _. exists e. split; [reflexivity |].
    split; [by apply getVideo_refused | by apply deleteVideo_refused].
Qed.

Lemma getVideo_not_found_witness :
  isDocumentPath ("content/" +:+ "v2") = true
  /\ firestore v1World !! ("content/" +:+ "v2") = None
  /\ (getVideo mallory "v2" v1World).1 =
       Rejected (ResourceNotFoundError "VideoContent" "videoContent" "v2")
  /\ deleteVideo goodEnv mallory "v2" v1World =
       (Rejected (ResourceNotFoundError "VideoContent" "videoContent" "v2"),
        record (DocGet "content/v2") v1World).
Proof.
  assert (Hdoc : isDocumentPath ("content/" +:+ "v2") = true) by reflexivity.
  assert (H : firestore v1World !! ("content/" +:+ "v2") = None)
    by reflexivity.
  split; [exact Hdoc |]. split; [exact H |].
  exact (proj1 (getVideo_not_found goodEnv mallory "v2" v1World) Hdoc H).
Defined.

Lemma content_path_inj (a b : string) :
  "content/" +:+ a = "content/" +:+ b -> a = b.
Proof. cbn [String.append]. intros H. by simplify_eq. Qed.

(** C8 as stated does not hold: the record [getVideo] returns for the
    existing id [v1] has no [author] field, although the stored document has
    one. *)
Lemma getVideo_record_lacks_author :
  is_Some (firestore v1World !! "content/v1")
  /\ ~ (exists r : JsObject,
         (getVideo alice "v1" v1World).1 = Fulfilled r
         /\ is_Some (r !! "id") /\ is_Some (r !! "assetID")
         /\ is_Some (r !! "playbackID") /\ is_Some (r !! "author")).
Proof.
  split.
  - exists v1Content. reflexivity.
  - intros (r & Hr & _ & _ & _ & Ha).
    rewrite (getVideo_found alice "v1" v1World v1Content) in Hr
      by reflexivity.
    cbn [fst] in Hr. injection Hr as <-.
    destruct Ha as [x Hx]. discriminate Hx.
Qed.

(** C8, amended: the record [getVideo] returns for an existing id consists
    of exactly the three fields [id], [assetID] and [playbackID] (there is
    no [author]); [id] is the requested id, the other two are read from the
    stored document. *)
Theorem getVideo_record (ctx : IServiceInvocationContext) (id : tID) (w : World)
    (contentData : JsObject) :
  firestore w !! ("content/" +:+ id) = Some contentData ->
  exists r : JsObject,
    (getVideo ctx id w).1 = Fulfilled r
    /\ dom r = {[ "id"; "assetID"; "playbackID" ]}
    /\ r !! "id" = Some (Js.str id)
    /\ r !! "assetID" = Some (Js.field contentData "assetID")
    /\ r !! "playbackID" = Some (Js.field contentData "playbackID")
    /\ r !! "author" = None.
Proof.
  intros E. rewrite (getVideo_found ctx id w contentData E). cbn [fst].
  eexists. split; [reflexivity |].
  split; [| splits].
  - rewrite !dom_insert_L, dom_empty_L. set_solver.
  - apply lookup_insert_eq.
  - rewrite lookup_insert_ne by done. apply lookup_insert_eq.
  - rewrite !lookup_insert_ne by done. apply lookup_insert_eq.
  - by rewrite !lookup_insert_ne.
Qed.

Lemma getVideo_record_witness :
  firestore v1World !! ("content/" +:+ "v1") = Some v1Content
  /\ exists r : JsObject,
       (getVideo alice "v1" v1World).1 = Fulfilled r
       /\ dom r = {[ "id"; "assetID"; "playbackID" ]}
       /\ r !! "id" = Some (Js.str "v1")
       /\ r !! "assetID" = Some (Js.field v1Content "assetID")
       /\ r !! "playbackID" = Some (Js.field v1Content "playbackID")
       /\ r !! "author" = None.
Proof.
  assert (H : firestore v1World !! ("content/" +:+ "v1") = Some v1Content)
    by reflexivity.
  split; [exact H |].
  exact (getVideo_record alice "v1" v1World v1Content H).
Defined.

(** Case analysis on the membership of a call in an explicit list. *)
Ltac elem_of_calls H :=
  repeat (apply elem_of_cons in H as [H|H]; [try discriminate H; try (injection H as ->) |]);
  try (apply elem_of_nil in H; destruct H).

(** C9 as stated does not hold: [id/] is not the string [id], yet the
    content record at [content/id/] is the document [content/id], which the
    local deletion removes. *)
Lemma deleteVideo_trailing_slash :
  "id/" <> "id"
  /\ (deleteVideo goodEnv alice "id/" idWorld).1 = Fulfilled tt
  /\ is_Some (firestore idWorld !! ("content/" +:+ "id/"))
  /\ firestore (deleteVideo goodEnv alice "id/" idWorld).2 !! ("content/" +:+ "id/") = None
  /\ firestore (deleteVideo goodEnv alice "id/" idWorld).2 !! ("content/" +:+ "id/")
     <> firestore idWorld !! ("content/" +:+ "id/").
Proof.
  splits; [discriminate | reflexivity | by eexists | reflexivity | discriminate].
Qed.

(** C9, amended: whatever the id, the only document path [deleteVideo]
    deletes is the literal [content/id]: every document deletion it issues
    names that path, a fulfilled call has issued it and removed exactly that
    document, and so the content record at [content/{id}] is left as it was
    whenever [content/{id}] does not name the document [content/id], in
    particular whenever [id] has no [/] and is not the string [id]. *)
Theorem deleteVideo_deletes_literal_path (env : Env)
    (ctx : IServiceInvocationContext) (id : tID) (w : World) :
  (forall p, DocDelete p ∈ issued w (deleteVideo env ctx id w).2 -> p = "content/id")
  /\ ((deleteVideo env ctx id w).1 = Fulfilled tt ->
      DocDelete "content/id" ∈ issued w (deleteVideo env ctx id w).2
      /\ firestore (deleteVideo env ctx id w).2 = delete "content/id" (firestore w))
  /\ (docRef ("content/" +:+ id) <> inr "content/id" ->
      firestore (deleteVideo env ctx id w).2 !! ("content/" +:+ id)
      = firestore w !! ("content/" +:+ id))
  /\ (hasSlash id = false -> id <> "id" ->
      firestore (deleteVideo env ctx id w).2 !! ("content/" +:+ id)
      = firestore w !! ("content/" +:+ id)).
Proof.
  assert (Hplain : hasSlash id = false -> id <> "id" ->
            docRef ("content/" +:+ id) <> inr "content/id").
  { intros Hs Hid. destruct (decide (id = "")) as [->|Hne]; [discriminate |].
    rewrite (docRef_plain_id id Hne Hs). intros Heq. injection Heq as Heq.
    apply Hid. by apply (content_path_inj id "id"). }
  assert (Hmain :
    (forall p, DocDelete p ∈ issued w (deleteVideo env ctx id w).2 -> p = "content/id")
    /\ ((deleteVideo env ctx id w).1 = Fulfilled tt ->
        DocDelete "content/id" ∈ issued w (deleteVideo env ctx id w).2
        /\ firestore (deleteVideo env ctx id w).2 = delete "content/id" (firestore w))
    /\ (docRef ("content/" +:+ id) <> inr "content/id" ->
        firestore (deleteVideo env ctx id w).2 !! ("content/" +:+ id)
        = firestore w !! ("content/" +:+ id))).
  { destruct (content_cases w id) as [[e E]|[[Hdoc E]|[contentData E]]].
    - rewrite (deleteVideo_refused env ctx id w e E). cbn [fst snd].
      rewrite (issued_record w []) by (by rewrite app_nil_r).
      splits; [intros p Hp; by elem_of_calls Hp | discriminate | done].
    - rewrite (deleteVideo_missing env ctx id w Hdoc E). cbn [fst snd].
      rewrite (issued_record w [DocGet ("content/" +:+ id)]) by reflexivity.
      splits; [intros p Hp; by elem_of_calls Hp | discriminate | done].
    - rewrite (deleteVideo_found env ctx id w contentData E). cbv zeta.
      destruct (deleteFails env _) as [e|] eqn:F; cbn [fst snd].
      + rewrite (issued_record w [DocGet ("content/" +:+ id);
                   AxiosDelete (assetURL (Js.template (Js.field contentData "assetID")))
                     (muxAuth env)])
          by (cbn [calls record]; by rewrite <- app_assoc).
        splits; [intros p Hp; by elem_of_calls Hp | discriminate | done].
      + rewrite (issued_record w [DocGet ("content/" +:+ id);
                   AxiosDelete (assetURL (Js.template (Js.field contentData "assetID")))
                     (muxAuth env);
                   DocDelete "content/id"])
          by (unfold afterRemoteDelete;
              cbn [calls record set_firestore set_muxAssets]; by rewrite <- !app_assoc).
        unfold afterRemoteDelete; cbn [firestore record set_firestore set_muxAssets].
        splits.
        * intros p Hp. by elem_of_calls Hp.
        * intros _. split; [rewrite !elem_of_cons; tauto | reflexivity].
        * intros Hid. rewrite firestore_lookup_delete.
          by rewrite bool_decide_eq_false_2. }
  destruct Hmain as (H1 & H2 & H3). splits; try done.
  intros Hs Hid. apply H3. by apply Hplain.
Qed.

Lemma deleteVideo_deletes_literal_path_witness :
  hasSlash "v1" = false
  /\ "v1" <> "id"
  /\ (deleteVideo goodEnv alice "v1" v1World).1 = Fulfilled tt
  /\ DocDelete "content/id" ∈ issued v1World (deleteVideo goodEnv alice "v1" v1World).2
  /\ firestore (deleteVideo goodEnv alice "v1" v1World).2 !! ("content/" +:+ "v1")
     = firestore v1World !! ("content/" +:+ "v1").
Proof.
  assert (Hs : hasSlash "v1" = false) by reflexivity.
  assert (Hid : "v1" <> "id") by discriminate.
  assert (Hf : (deleteVideo goodEnv alice "v1" v1World).1 = Fulfilled tt)
    by reflexivity.
  pose proof (deleteVideo_deletes_literal_path goodEnv alice "v1" v1World)
    as (_ & Hdel & _ & Hkeep).
  split; [exact Hs |]. split; [exact Hid |]. split; [exact Hf |].
  split; [exact (proj1 (Hdel Hf)) | exact (Hkeep Hs Hid)].
Defined.

(** C2 at a failing input: [v1] has a content record and an asset; a
    fulfilled [deleteVideo] has fetched the record, deleted the asset at the
    transcoder and deleted the document [content/id]: the asset is gone, the
    content record of [v1] is still in the store. *)
Theorem deleteVideo_keeps_content_record :
  let w' := (deleteVideo goodEnv alice "v1" v1World).2 in
  firestore v1World !! "content/v1" = Some v1Content
  /\ (deleteVideo goodEnv alice "v1" v1World).1 = Fulfilled tt
  /\ issued v1World w' =
       [DocGet "content/v1";
        AxiosDelete "https://api.mux.com/video/v1/assets/a1"
          {| username := Js.str "mux-id"; password := Js.str "mux-secret" |};
        DocDelete "content/id"]
  /\ muxAssets w' = ∅
  /\ firestore w' !! "content/v1" = Some v1Content.
Proof.
  cbv zeta. splits; reflexivity.
Qed.

(** C1 at a failing input: [mallory] is not the author of [v1]; her upload
    is rejected before anything is touched, but her [deleteVideo] goes
    through: no check is made, the asset is deleted at the transcoder and a
    document deletion is issued. *)
Theorem deleteVideo_unchecked_caller :
  let w' := (deleteVideo goodEnv mallory "v1" v1World).2 in
  uploadVideo goodEnv sampleVideoData mallory "v1" clip "video/mp4" v1World
    = (Rejected (AuthorizationError "VideoContent" "upload video data"), v1World)
  /\ (deleteVideo goodEnv mallory "v1" v1World).1 = Fulfilled tt
  /\ issued v1World w' =
       [DocGet "content/v1";
        AxiosDelete "https://api.mux.com/video/v1/assets/a1"
          {| username := Js.str "mux-id"; password := Js.str "mux-secret" |};
        DocDelete "content/id"]
  /\ muxAssets v1World = {["a1"]}
  /\ muxAssets w' = ∅.
Proof.
  cbv zeta. splits; reflexivity.
Qed.

(** *** Uploads *)

Section Upload.

Variable env : Env.
Variable VideoDataService_getVideo :
  IServiceInvocationContext -> tID -> Async JsObject.

Abbreviation upload := (uploadVideo env VideoDataService_getVideo).

Lemma emit_promisePiper (p : Promise unit) (ev : StreamEvent) :
  emit promisePiper_on p ev = if bool_decide (ev = finish) then resolve tt p else p.
Proof. destruct ev; reflexivity. Qed.

Lemma resolve_idem (p : Promise unit) : resolve tt (resolve tt p) = resolve tt p.
Proof. by destruct p. Qed.

Lemma settle_from (p : Promise unit) (evs : list StreamEvent) :
  foldl (emit promisePiper_on) p evs =
    if bool_decide (finish ∈ evs) then resolve tt p else p.
Proof.
  revert p. induction evs as [|ev evs IH]; intros p.
  - reflexivity.
  - cbn [foldl]. rewrite IH, emit_promisePiper.
    destruct (decide (ev = finish)) as [->|Hne].
    + rewrite (bool_decide_eq_true_2 (finish = finish)) by done.
      rewrite (bool_decide_eq_true_2 (finish ∈ finish :: evs)) by (apply elem_of_cons; by left).
      rewrite resolve_idem. by case_bool_decide.
    + rewrite (bool_decide_eq_false_2 (ev = finish)) by done.
      rewrite (bool_decide_ext (finish ∈ ev :: evs) (finish ∈ evs)); [done |].
      rewrite elem_of_cons.
      split; [intros [Heq|Hin]; [by destruct Hne | done] | by right].
Qed.

Lemma settle_promisePiper (evs : list StreamEvent) :
  settle promisePiper_on evs =
    if bool_decide (finish ∈ evs) then Fulfilled tt else Pending.
Proof. unfold settle. rewrite settle_from. by case_bool_decide. Qed.

Lemma uploadVideo_unauthorized (ctx : IServiceInvocationContext) (id : tID)
    (fs : ReadableStream) (mime : string) (w : World) (video : JsObject) (w1 : World) :
  VideoDataService_getVideo ctx id w = (Fulfilled video, w1) ->
  Js.field video "author" <> Js.str (userID (auth ctx)) ->
  upload ctx id fs mime w =
    (Rejected (AuthorizationError "VideoContent" "upload video data"), w1).
Proof.
  intros Hget Hne. unfold uploadVideo, mbind, Async_bind, await.
  rewrite Hget. apply loose_neq_str in Hne. by rewrite Hne.
Qed.


(** What an authorized upload does once the video record is in hand. *)
Lemma uploadVideo_authorized (ctx : IServiceInvocationContext) (id : tID)
    (fs : ReadableStream) (mime : string) (w : World) (video : JsObject) (w1 : World) :
  VideoDataService_getVideo ctx id w = (Fulfilled video, w1) ->
  Js.field video "author" = Js.str (userID (auth ctx)) ->
  upload ctx id fs mime w =
    let file := uploadFile ctx id in
    let w2 := pipe fs (createWriteStream env file mime) w1 in
    if bool_decide (finish ∈ writeStreamEmits env file) then
      match makePublic env file w2 with
      | (Fulfilled _, w3) =>
          axios_post env "https://api.mux.com/video/v1/assets"
            (transcodeRequest ctx id) (muxAuth env) w3
      | (Rejected e, w3) => (Rejected e, w3)
      | (Pending, w3) => (Pending, w3)
      end
    else (Pending, w2).
Proof.
  intros Hget Hauth. unfold uploadVideo, mbind, Async_bind, await.
  rewrite Hget.
  assert (Hchk : Js.loose_neq (Js.str (userID (auth ctx))) (Js.field video "author") = false).
  { apply not_true_is_false. rewrite loose_neq_str. by intros []. }
  rewrite Hchk. cbv zeta. unfold promisePiper.
  rewrite settle_promisePiper.
  change (emits (createWriteStream env (bucket_file "meteor-videos"
            ("masters/" +:+ userID (auth ctx) +:+ "/" +:+ id)) mime))
    with (writeStreamEmits env (uploadFile ctx id)).
  case_bool_decide; reflexivity.
Qed.

(** The four ways an authorized upload can go, with the calls made after the
    ownership check in each. *)
Lemma uploadVideo_cases (ctx : IServiceInvocationContext) (id : tID)
    (fs : ReadableStream) (mime : string) (w : World) (video : JsObject) (w1 : World) :
  VideoDataService_getVideo ctx id w = (Fulfilled video, w1) ->
  Js.field video "author" = Js.str (userID (auth ctx)) ->
  let r := upload ctx id fs mime w in
  let file := uploadFile ctx id in
  let url := "https://api.mux.com/video/v1/assets" in
  ((finish ∉ writeStreamEmits env file)
   /\ r.1 = Pending
   /\ issued w1 r.2 = [StreamPipe file mime]
   /\ storage r.2 = storage w1 /\ muxRequests r.2 = muxRequests w1)
  \/ (exists e, finish ∈ writeStreamEmits env file
       /\ makePublicFails env file = Some e
       /\ r.1 = Rejected e
       /\ issued w1 r.2 = [StreamPipe file mime; MakePublic file]
       /\ muxRequests r.2 = muxRequests w1)
  \/ (exists e, finish ∈ writeStreamEmits env file
       /\ makePublicFails env file = None
       /\ postFails env url = Some e
       /\ r.1 = Rejected e
       /\ issued w1 r.2 = uploadSteps env ctx id mime
       /\ storage r.2 = <[storage_key file := uploaded fs mime true]>
                          (<[storage_key file := uploaded fs mime false]> (storage w1))
       /\ muxRequests r.2 = muxRequests w1)
  \/ (finish ∈ writeStreamEmits env file
      /\ makePublicFails env file = None
      /\ postFails env url = None
      /\ r.1 = Fulfilled tt
      /\ issued w1 r.2 = uploadSteps env ctx id mime
      /\ storage r.2 = <[storage_key file := uploaded fs mime true]>
                         (<[storage_key file := uploaded fs mime false]> (storage w1))
      /\ muxRequests r.2 = muxRequests w1 ++ [transcodeRequest ctx id]).
Proof.
  intros Hget Hauth r file url. subst r.
  rewrite (uploadVideo_authorized ctx id fs mime w video w1 Hget Hauth).
  cbv zeta. fold file. unfold pipe.
  change (emits (createWriteStream env file mime)) with (writeStreamEmits env file).
  cbn [target metadataContentType createWriteStream].
  case_bool_decide as Hfin.
  - right. unfold makePublic.
    destruct (makePublicFails env file) as [e|] eqn:Hpub.
    + left. exists e. cbn [fst snd]. splits; try done.
      apply issued_record. cbn [calls record set_storage].
      by rewrite <- app_assoc.
    + right. cbn [storage record set_storage]. rewrite lookup_insert_eq.
      unfold axios_post. fold url.
      destruct (postFails env url) as [e|] eqn:Hpost; [left; exists e | right];
        cbn [fst snd storage muxRequests record set_storage set_muxRequests
             set_muxAssets body contentType];
        splits; try done;
        apply issued_record;
        cbn [calls record set_storage set_muxRequests set_muxAssets];
        by rewrite <- !app_assoc.
  - left. cbn [fst snd]. splits; try done.
    by apply issued_record.
Qed.


(** C3: when the caller is not the author of the video, [uploadVideo] is
    rejected with an authorization error and the world is the one the lookup
    of the video left: no call is issued, nothing is written to storage and
    nothing is requested from the transcoder. *)
Theorem uploadVideo_rejects_non_author (ctx : IServiceInvocationContext) (id : tID)
    (fs : ReadableStream) (mime : string) (w : World) (video : JsObject) (w1 : World) :
  VideoDataService_getVideo ctx id w = (Fulfilled video, w1) ->
  Js.field video "author" <> Js.str (userID (auth ctx)) ->
  upload ctx id fs mime w =
    (Rejected (AuthorizationError "VideoContent" "upload video data"), w1)
  /\ issued w1 (upload ctx id fs mime w).2 = []
  /\ storage (upload ctx id fs mime w).2 = storage w1
  /\ muxRequests (upload ctx id fs mime w).2 = muxRequests w1.
Proof.
  intros Hget Hne.
  rewrite (uploadVideo_unauthorized ctx id fs mime w video w1 Hget Hne).
  cbn [snd]. splits; try reflexivity.
  apply issued_record. by rewrite app_nil_r.
Qed.


(** C10: the promise of [promisePiper] is never rejected, and it is
    fulfilled exactly when the write stream emits [finish] (it stays pending
    otherwise); hence the copy step of [uploadVideo] has no error outcome: an
    authorized upload that is rejected was rejected by the object store
    refusing the change of visibility or by the transcoder request, after
    the copy had finished. *)
Theorem promisePiper_never_rejects (rs : ReadableStream) (ws : WritableStream)
    (w0 : World) :
  (forall e, (promisePiper rs ws w0).1 <> Rejected e)
  /\ ((promisePiper rs ws w0).1 = Fulfilled tt <-> finish ∈ emits ws)
  /\ ((promisePiper rs ws w0).1 = Pending <-> finish ∉ emits ws)
  /\ (forall ctx id fs mime w video w1 e,
        VideoDataService_getVideo ctx id w = (Fulfilled video, w1) ->
        Js.field video "author" = Js.str (userID (auth ctx)) ->
        (upload ctx id fs mime w).1 = Rejected e ->
        finish ∈ writeStreamEmits env (uploadFile ctx id)
        /\ (makePublicFails env (uploadFile ctx id) = Some e
            \/ postFails env "https://api.mux.com/video/v1/assets" = Some e)).
Proof.
  unfold promisePiper. cbn [fst]. rewrite settle_promisePiper.
  splits.
  - intros e. by case_bool_decide.
  - case_bool_decide; split; intros; done.
  - case_bool_decide; split; intros; done.
  - intros ctx id fs mime w video w1 e Hget Hauth Hrej.
    destruct (uploadVideo_cases ctx id fs mime w video w1 Hget Hauth)
      as [(Hfin & Hr & _)
         |[(e' & Hfin & Hpub & Hr & _)
          |[(e' & Hfin & Hpub & Hpost & Hr & _)
           |(Hfin & Hpub & Hpost & Hr & _)]]];
      rewrite Hr in Hrej; try discriminate Hrej; injection Hrej as <-; eauto.
Qed.

End Upload.

Lemma uploadVideo_rejects_non_author_witness :
  sampleVideoData mallory "v1" v1World
    = (Fulfilled (<["id" := Js.str "v1"]> (<["author" := Js.str "alice"]> ∅)), v1World)
  /\ Js.field (<["id" := Js.str "v1"]> (<["author" := Js.str "alice"]> ∅)) "author"
       <> Js.str (userID (auth mallory))
  /\ uploadVideo goodEnv sampleVideoData mallory "v1" clip "video/mp4" v1World
       = (Rejected (AuthorizationError "VideoContent" "upload video data"), v1World).
Proof.
  assert (Hget : sampleVideoData mallory "v1" v1World
    = (Fulfilled (<["id" := Js.str "v1"]> (<["author" := Js.str "alice"]> ∅)), v1World))
    by reflexivity.
  assert (Hne : Js.field (<["id" := Js.str "v1"]> (<["author" := Js.str "alice"]> ∅)) "author"
       <> Js.str (userID (auth mallory))) by discriminate.
  split; [exact Hget |]. split; [exact Hne |].
  exact (proj1 (uploadVideo_rejects_non_author goodEnv sampleVideoData mallory "v1"
                  clip "video/mp4" v1World _ v1World Hget Hne)).
Defined.


Lemma promisePiper_never_rejects_witness :
  sampleVideoData alice "v1" v1World
    = (Fulfilled (<["id" := Js.str "v1"]> (<["author" := Js.str "alice"]> ∅)), v1World)
  /\ (uploadVideo privateEnv sampleVideoData alice "v1" clip "video/mp4" v1World).1
       = Rejected (ExternalError "403")
  /\ finish ∈ writeStreamEmits privateEnv (uploadFile alice "v1")
  /\ (makePublicFails privateEnv (uploadFile alice "v1") = Some (ExternalError "403")
      \/ postFails privateEnv "https://api.mux.com/video/v1/assets"
         = Some (ExternalError "403")).
Proof.
  assert (Hget : sampleVideoData alice "v1" v1World
    = (Fulfilled (<["id" := Js.str "v1"]> (<["author" := Js.str "alice"]> ∅)), v1World))
    by reflexivity.
  assert (Hrej : (uploadVideo privateEnv sampleVideoData alice "v1" clip "video/mp4"
                    v1World).1 = Rejected (ExternalError "403")) by reflexivity.
  pose proof (promisePiper_never_rejects privateEnv sampleVideoData clip
                (createWriteStream privateEnv (uploadFile alice "v1") "video/mp4")
                v1World) as (_ & _ & _ & Hcopy).
  split; [exact Hget |]. split; [exact Hrej |].
  exact (Hcopy alice "v1" clip "video/mp4" v1World _ v1World _ Hget eq_refl Hrej).
Defined.


(** *** Further properties: what the service reads, writes and leaves behind *)

Lemma append_inj_r (p a b : string) : p +:+ a = p +:+ b -> a = b.
Proof.
  induction p as [|c p IH]; cbn [String.append]; intros H.
  - exact H.
  - injection H as H. by apply IH.
Qed.

(** X2: when the content record has no [assetID] field, [deleteVideo] still
    goes on to the transcoder: its second call is a DELETE of the asset URL
    ending in the text [undefined]. *)
Theorem deleteVideo_without_assetID (env : Env) (ctx : IServiceInvocationContext)
    (id : tID) (w : World) (contentData : JsObject) :
  firestore w !! ("content/" +:+ id) = Some contentData ->
  contentData !! "assetID" = None ->
  issued w (deleteVideo env ctx id w).2 !! 1
    = Some (AxiosDelete "https://api.mux.com/video/v1/assets/undefined" (muxAuth env)).
Proof.
  intros E Hno. rewrite (deleteVideo_found env ctx id w contentData E). cbv zeta.
  unfold afterRemoteDelete, Js.field. rewrite Hno. cbn [default Js.template].
  destruct (deleteFails env _) as [e|]; cbn [snd].
  - rewrite (issued_record w [DocGet ("content/" +:+ id);
              AxiosDelete (assetURL "undefined") (muxAuth env)]).
    + reflexivity.
    + cbn [calls record]. by rewrite <- app_assoc.
  - rewrite (issued_record w [DocGet ("content/" +:+ id);
              AxiosDelete (assetURL "undefined") (muxAuth env);
              DocDelete "content/id"]).
    + reflexivity.
    + cbn [calls record set_firestore set_muxAssets].
      by rewrite <- !app_assoc.
Qed.

Lemma deleteVideo_without_assetID_witness :
  firestore draftWorld !! ("content/" +:+ "v3") = Some (<["title" := Js.str "draft"]> ∅)
  /\ (<["title" := Js.str "draft"]> ∅ : JsObject) !! "assetID" = None
  /\ issued draftWorld (deleteVideo goodEnv alice "v3" draftWorld).2 !! 1
     = Some (AxiosDelete "https://api.mux.com/video/v1/assets/undefined" (muxAuth goodEnv)).
Proof.
  assert (H1 : firestore draftWorld !! ("content/" +:+ "v3")
               = Some (<["title" := Js.str "draft"]> ∅)) by reflexivity.
  assert (H2 : (<["title" := Js.str "draft"]> ∅ : JsObject) !! "assetID" = None)
    by reflexivity.
  split; [exact H1 |]. split; [exact H2 |].
  exact (deleteVideo_without_assetID goodEnv alice "v3" draftWorld _ H1 H2).
Defined.

(** X3: when the transcoder refuses the DELETE, [deleteVideo] is rejected
    with the error of the request, after the fetch and that one request: no
    document deletion is issued, the document store and the assets are as
    they were. *)
Theorem deleteVideo_remote_failure (env : Env) (ctx : IServiceInvocationContext)
    (id : tID) (w : World) (contentData : JsObject) (e : IError) :
  firestore w !! ("content/" +:+ id) = Some contentData ->
  deleteFails env (assetURL (Js.template (Js.field contentData "assetID"))) = Some e ->
  let r := deleteVideo env ctx id w in
  r.1 = Rejected e
  /\ issued w r.2 =
       [DocGet ("content/" +:+ id);
        AxiosDelete (assetURL (Js.template (Js.field contentData "assetID"))) (muxAuth env)]
  /\ firestore r.2 = firestore w
  /\ muxAssets r.2 = muxAssets w.
Proof.
  intros E Hfail r. subst r.
  rewrite (deleteVideo_found env ctx id w contentData E). cbv zeta.
  rewrite Hfail. cbn [fst snd]. splits; try reflexivity.
  apply issued_record. cbn [calls record]. by rewrite <- app_assoc.
Qed.

Lemma deleteVideo_remote_failure_witness :
  firestore v1World !! ("content/" +:+ "v1") = Some v1Content
  /\ deleteFails muxDownEnv (assetURL (Js.template (Js.field v1Content "assetID")))
       = Some (ExternalError "503")
  /\ (deleteVideo muxDownEnv alice "v1" v1World).1 = Rejected (ExternalError "503")
  /\ firestore (deleteVideo muxDownEnv alice "v1" v1World).2 = firestore v1World.
Proof.
  assert (H1 : firestore v1World !! ("content/" +:+ "v1") = Some v1Content)
    by reflexivity.
  assert (H2 : deleteFails muxDownEnv (assetURL (Js.template (Js.field v1Content "assetID")))
               = Some (ExternalError "503")) by reflexivity.
  pose proof (deleteVideo_remote_failure muxDownEnv alice "v1" v1World v1Content _ H1 H2)
    as (Hr & _ & Hf & _).
  split; [exact H1 |]. split; [exact H2 |]. split; [exact Hr | exact Hf].
Defined.

Section UploadOutcomes.

Variable env : Env.
Variable VideoDataService_getVideo :
  IServiceInvocationContext -> tID -> Async JsObject.

Abbreviation upload := (uploadVideo env VideoDataService_getVideo).

(** X7: when the lookup of the video is rejected, or never settles,
    [uploadVideo] ends the same way in the world the lookup left: the error
    reaches the caller unchanged and nothing has been uploaded or posted. *)
Theorem uploadVideo_lookup_failure (ctx : IServiceInvocationContext) (id : tID)
    (fs : ReadableStream) (mime : string) (w w1 : World) :
  (forall e, VideoDataService_getVideo ctx id w = (Rejected e, w1) ->
             upload ctx id fs mime w = (Rejected e, w1))
  /\ (VideoDataService_getVideo ctx id w = (Pending, w1) ->
      upload ctx id fs mime w = (Pending, w1)).
Proof.
  split; [intros e Hget | intros Hget];
    unfold uploadVideo, mbind, Async_bind, await; by rewrite Hget.
Qed.

(** X8: when the write stream never emits [finish] (it failed, say), an
    authorized [uploadVideo] never settles: the copy was requested, nothing
    is in the object store, and neither the change of visibility nor the
    transcoder request is ever made. *)
Theorem uploadVideo_never_settles (ctx : IServiceInvocationContext) (id : tID)
    (fs : ReadableStream) (mime : string) (w : World) (video : JsObject) (w1 : World) :
  VideoDataService_getVideo ctx id w = (Fulfilled video, w1) ->
  Js.field video "author" = Js.str (userID (auth ctx)) ->
  finish ∉ writeStreamEmits env (uploadFile ctx id) ->
  let r := upload ctx id fs mime w in
  r.1 = Pending
  /\ issued w1 r.2 = [StreamPipe (uploadFile ctx id) mime]
  /\ storage r.2 = storage w1
  /\ muxRequests r.2 = muxRequests w1.
Proof.
  intros Hget Hauth Hno r.
  destruct (uploadVideo_cases env VideoDataService_getVideo ctx id fs mime w video w1
              Hget Hauth)
    as [(_ & Hr & Hi & Hs & Hm)
       |[(e & Hfin & _)|[(e & Hfin & _)|(Hfin & _)]]]; try done.
Qed.

(** X9: when the object store refuses the change of visibility, an
    authorized [uploadVideo] is rejected with that error and nothing is
    rolled back: the object stays in the store, private, and the transcoder
    is never called. *)
Theorem uploadVideo_makePublic_failure (ctx : IServiceInvocationContext) (id : tID)
    (fs : ReadableStream) (mime : string) (w : World) (video : JsObject) (w1 : World)
    (e : IError) :
  VideoDataService_getVideo ctx id w = (Fulfilled video, w1) ->
  Js.field video "author" = Js.str (userID (auth ctx)) ->
  finish ∈ writeStreamEmits env (uploadFile ctx id) ->
  makePublicFails env (uploadFile ctx id) = Some e ->
  let r := upload ctx id fs mime w in
  r.1 = Rejected e
  /\ issued w1 r.2 = [StreamPipe (uploadFile ctx id) mime; MakePublic (uploadFile ctx id)]
  /\ storage r.2 = <[storage_key (uploadFile ctx id) := uploaded fs mime false]> (storage w1)
  /\ muxRequests r.2 = muxRequests w1.
Proof.
  intros Hget Hauth Hfin Hpub r. subst r.
  rewrite (uploadVideo_authorized env VideoDataService_getVideo ctx id fs mime w video w1
             Hget Hauth).
  cbv zeta. rewrite (bool_decide_eq_true_2 _ Hfin).
  unfold makePublic. rewrite Hpub. unfold pipe.
  change (emits (createWriteStream env (uploadFile ctx id) mime))
    with (writeStreamEmits env (uploadFile ctx id)).
  rewrite (bool_decide_eq_true_2 _ Hfin).
  cbn [fst snd target metadataContentType createWriteStream storage muxRequests
       record set_storage].
  splits; try reflexivity.
  apply issued_record. cbn [calls record set_storage]. by rewrite <- app_assoc.
Qed.

(** X10: when the transcoder refuses the POST, an authorized [uploadVideo]
    is rejected with that error after all three calls, and nothing is rolled
    back: the object stays in the store, public, while no transcoding was
    requested. *)
Theorem uploadVideo_post_failure (ctx : IServiceInvocationContext) (id : tID)
    (fs : ReadableStream) (mime : string) (w : World) (video : JsObject) (w1 : World)
    (e : IError) :
  VideoDataService_getVideo ctx id w = (Fulfilled video, w1) ->
  Js.field video "author" = Js.str (userID (auth ctx)) ->
  finish ∈ writeStreamEmits env (uploadFile ctx id) ->
  makePublicFails env (uploadFile ctx id) = None ->
  postFails env "https://api.mux.com/video/v1/assets" = Some e ->
  let r := upload ctx id fs mime w in
  r.1 = Rejected e
  /\ issued w1 r.2 = uploadSteps env ctx id mime
  /\ storage r.2 !! storage_key (uploadFile ctx id) = Some (uploaded fs mime true)
  /\ muxRequests r.2 = muxRequests w1.
Proof.
  intros Hget Hauth Hfin Hpub Hpost r.
  destruct (uploadVideo_cases env VideoDataService_getVideo ctx id fs mime w video w1
              Hget Hauth)
    as [(Hno & _)
       |[(e' & _ & Hpub' & _)
        |[(e' & _ & _ & Hpost' & Hr & Hi & Hs & Hm)
         |(_ & _ & Hpost' & _)]]]; try done; try congruence.
  fold r in Hr, Hi, Hs, Hm. splits; try done.
  - congruence.
  - rewrite Hs. apply lookup_insert_eq.
Qed.

End UploadOutcomes.

Lemma user_path_inj (u u' i i' : string) :
  hasSlash u = false -> hasSlash u' = false ->
  u +:+ "/" +:+ i = u' +:+ "/" +:+ i' -> u = u' /\ i = i'.
Proof.
  revert u'. induction u as [|c u IH]; intros [|c' u'] Hu Hu' H.
  - change (String "/" i = String "/" i') in H. injection H as ->. done.
  - change (String "/" i = String c' (u' +:+ "/" +:+ i')) in H.
    injection H as <- _. discriminate Hu'.
  - change (String c (u +:+ "/" +:+ i) = String "/" i') in H.
    injection H as -> _. discriminate Hu.
  - rewrite !append_cons in H. injection H as -> H.
    cbn [hasSlash] in Hu, Hu'.
    destruct (Ascii.eqb c' "/"); [discriminate |].
    destruct (IH u' Hu Hu' H) as [-> ->]. done.
Qed.

(** X12: as long as user identifiers contain no [/], the storage object of
    an upload determines the uploader and the video: two uploads write to
    the same object only if they have the same user and the same id. *)
Theorem uploadFile_inj (ctx ctx' : IServiceInvocationContext) (id id' : tID) :
  hasSlash (userID (auth ctx)) = false ->
  hasSlash (userID (auth ctx')) = false ->
  uploadFile ctx id = uploadFile ctx' id' ->
  userID (auth ctx) = userID (auth ctx') /\ id = id'.
Proof.
  intros Hu Hu' H. unfold uploadFile, bucket_file in H. injection H as H.
  apply append_inj_r in H. by apply user_path_inj.
Qed.

Lemma uploadFile_inj_witness :
  hasSlash (userID (auth alice)) = false
  /\ uploadFile alice "v1" = uploadFile alice "v1"
  /\ userID (auth alice) = userID (auth alice) /\ "v1" = "v1".
Proof.
  split; [reflexivity |]. split; [reflexivity |].
  exact (uploadFile_inj alice alice "v1" "v1" eq_refl eq_refl eq_refl).
Defined.

(** Without the condition two different uploads can meet in one object. *)
Example uploadFile_collision :
  uploadFile {| auth := {| userID := "a/b" |} |} "c"
  = uploadFile {| auth := {| userID := "a" |} |} "b/c".
Proof. reflexivity. Qed.

Section UploadAgain.

Variable env : Env.
Variable VideoDataService_getVideo :
  IServiceInvocationContext -> tID -> Async JsObject.

Abbreviation upload := (uploadVideo env VideoDataService_getVideo).

(** An authorized upload on which every service answers. *)
Lemma uploadVideo_success (ctx : IServiceInvocationContext) (id : tID)
    (fs : ReadableStream) (mime : string) (w : World) (video : JsObject) (w1 : World) :
  VideoDataService_getVideo ctx id w = (Fulfilled video, w1) ->
  Js.field video "author" = Js.str (userID (auth ctx)) ->
  finish ∈ writeStreamEmits env (uploadFile ctx id) ->
  makePublicFails env (uploadFile ctx id) = None ->
  postFails env "https://api.mux.com/video/v1/assets" = None ->
  let r := upload ctx id fs mime w in
  r.1 = Fulfilled tt
  /\ storage r.2 !! storage_key (uploadFile ctx id) = Some (uploaded fs mime true)
  /\ muxRequests r.2 = muxRequests w1 ++ [transcodeRequest ctx id].
Proof.
  intros Hget Hauth Hfin Hpub Hpost r.
  destruct (uploadVideo_cases env VideoDataService_getVideo ctx id fs mime w video w1
              Hget Hauth)
    as [(Hno & _)
       |[(e' & _ & Hpub' & _)
        |[(e' & _ & _ & Hpost' & _)
         |(_ & _ & _ & Hr & Hi & Hs & Hm)]]]; try done; try congruence.
  fold r in Hr, Hs, Hm. splits; try done.
  rewrite Hs. apply lookup_insert_eq.
Qed.

(** X13: uploads are not deduplicated.  When an authorized upload has gone
    through and the same video is uploaded again, the second upload goes
    through as well: the stored object is replaced by the new data and a
    second, identical request is made to the transcoder. *)
Theorem uploadVideo_twice (ctx : IServiceInvocationContext) (id : tID)
    (fs1 fs2 : ReadableStream) (mime1 mime2 : string) (w : World)
    (video video' : JsObject) (w1 : World) :
  VideoDataService_getVideo ctx id w = (Fulfilled video, w1) ->
  Js.field video "author" = Js.str (userID (auth ctx)) ->
  finish ∈ writeStreamEmits env (uploadFile ctx id) ->
  makePublicFails env (uploadFile ctx id) = None ->
  postFails env "https://api.mux.com/video/v1/assets" = None ->
  let r1 := upload ctx id fs1 mime1 w in
  VideoDataService_getVideo ctx id r1.2 = (Fulfilled video', r1.2) ->
  Js.field video' "author" = Js.str (userID (auth ctx)) ->
  let r2 := upload ctx id fs2 mime2 r1.2 in
  r1.1 = Fulfilled tt
  /\ r2.1 = Fulfilled tt
  /\ storage r2.2 !! storage_key (uploadFile ctx id) = Some (uploaded fs2 mime2 true)
  /\ muxRequests r2.2
     = muxRequests w1 ++ [transcodeRequest ctx id; transcodeRequest ctx id].
Proof.
  intros Hget Hauth Hfin Hpub Hpost r1 Hget' Hauth' r2.
  destruct (uploadVideo_success ctx id fs1 mime1 w video w1 Hget Hauth Hfin Hpub Hpost)
    as (H1 & _ & Hm1).
  destruct (uploadVideo_success ctx id fs2 mime2 r1.2 video' r1.2 Hget' Hauth' Hfin Hpub Hpost)
    as (H2 & Hs2 & Hm2).
  fold r1 in H1, Hm1. fold r2 in H2, Hs2, Hm2.
  splits; try done. rewrite Hm2, Hm1. by rewrite <- app_assoc.
Qed.

End UploadAgain.

Lemma uploadVideo_lookup_failure_witness :
  sampleVideoData alice "v9" v1World
    = (Rejected (ResourceNotFoundError "VideoData" "video" "v9"), v1World)
  /\ uploadVideo goodEnv sampleVideoData alice "v9" clip "video/mp4" v1World
     = (Rejected (ResourceNotFoundError "VideoData" "video" "v9"), v1World).
Proof.
  assert (Hget : sampleVideoData alice "v9" v1World
    = (Rejected (ResourceNotFoundError "VideoData" "video" "v9"), v1World))
    by reflexivity.
  split; [exact Hget |].
  exact (proj1 (uploadVideo_lookup_failure goodEnv sampleVideoData alice "v9" clip
                  "video/mp4" v1World v1World) _ Hget).
Defined.

(** Membership of [finish] in a concrete list of events. *)
Ltac finish_emitted := apply (bool_decide_unpack _); reflexivity.

Lemma uploadVideo_never_settles_witness :
  (finish ∉ writeStreamEmits brokenUploadEnv (uploadFile alice "v1"))
  /\ (uploadVideo brokenUploadEnv sampleVideoData alice "v1" clip "video/mp4" v1World).1
     = Pending
  /\ storage (uploadVideo brokenUploadEnv sampleVideoData alice "v1" clip "video/mp4"
                v1World).2 = storage v1World.
Proof.
  assert (Hno : finish ∉ writeStreamEmits brokenUploadEnv (uploadFile alice "v1"))
    by finish_emitted.
  pose proof (uploadVideo_never_settles brokenUploadEnv sampleVideoData alice "v1" clip
                "video/mp4" v1World _ v1World eq_refl eq_refl Hno) as (Hr & _ & Hs & _).
  split; [exact Hno |]. split; [exact Hr | exact Hs].
Defined.

Lemma uploadVideo_makePublic_failure_witness :
  finish ∈ writeStreamEmits privateEnv (uploadFile alice "v1")
  /\ makePublicFails privateEnv (uploadFile alice "v1") = Some (ExternalError "403")
  /\ (uploadVideo privateEnv sampleVideoData alice "v1" clip "video/mp4" v1World).1
     = Rejected (ExternalError "403")
  /\ storage (uploadVideo privateEnv sampleVideoData alice "v1" clip "video/mp4" v1World).2
     = <[storage_key (uploadFile alice "v1") := uploaded clip "video/mp4" false]>
         (storage v1World).
Proof.
  assert (Hfin : finish ∈ writeStreamEmits privateEnv (uploadFile alice "v1"))
    by finish_emitted.
  pose proof (uploadVideo_makePublic_failure privateEnv sampleVideoData alice "v1" clip
                "video/mp4" v1World _ v1World _ eq_refl eq_refl Hfin eq_refl)
    as (Hr & _ & Hs & _).
  split; [exact Hfin |]. split; [reflexivity |]. split; [exact Hr | exact Hs].
Defined.

Lemma uploadVideo_post_failure_witness :
  finish ∈ writeStreamEmits muxDownEnv (uploadFile alice "v1")
  /\ postFails muxDownEnv "https://api.mux.com/video/v1/assets" = Some (ExternalError "503")
  /\ (uploadVideo muxDownEnv sampleVideoData alice "v1" clip "video/mp4" v1World).1
     = Rejected (ExternalError "503")
  /\ storage (uploadVideo muxDownEnv sampleVideoData alice "v1" clip "video/mp4" v1World).2
       !! storage_key (uploadFile alice "v1") = Some (uploaded clip "video/mp4" true).
Proof.
  assert (Hfin : finish ∈ writeStreamEmits muxDownEnv (uploadFile alice "v1"))
    by finish_emitted.
  pose proof (uploadVideo_post_failure muxDownEnv sampleVideoData alice "v1" clip
                "video/mp4" v1World _ v1World _ eq_refl eq_refl Hfin eq_refl eq_refl)
    as (Hr & _ & Hs & _).
  split; [exact Hfin |]. split; [reflexivity |]. split; [exact Hr | exact Hs].
Defined.

Lemma uploadVideo_twice_witness :
  let r1 := uploadVideo goodEnv (videosOf "alice") alice "v1" clip "video/mp4" v1World in
  let r2 := uploadVideo goodEnv (videosOf "alice") alice "v1" {| chunks := ["xyz"] |}
              "video/webm" r1.2 in
  finish ∈ writeStreamEmits goodEnv (uploadFile alice "v1")
  /\ r2.1 = Fulfilled tt
  /\ storage r2.2 !! storage_key (uploadFile alice "v1")
     = Some (uploaded {| chunks := ["xyz"] |} "video/webm" true)
  /\ muxRequests r2.2
     = muxRequests v1World ++ [transcodeRequest alice "v1"; transcodeRequest alice "v1"].
Proof.
  intros r1 r2.
  assert (Hfin : finish ∈ writeStreamEmits goodEnv (uploadFile alice "v1"))
    by finish_emitted.
  pose proof (uploadVideo_twice goodEnv (videosOf "alice") alice "v1" clip
                {| chunks := ["xyz"] |} "video/mp4" "video/webm" v1World _ _
                v1World eq_refl eq_refl Hfin eq_refl eq_refl eq_refl eq_refl)
    as (_ & H2 & Hs & Hm).
  split; [exact Hfin |]. split; [exact H2 |]. split; [exact Hs | exact Hm].
Defined.

(** X1: [getVideo] only reads: it makes the one request for the document
    [content/{id}], or none at all when the client refuses the path, and
    leaves the document store, the object store and the transcoder as they
    were; its result depends on nothing but that document: any caller, in
    any world holding the same document at that path, gets the same
    result. *)
Theorem getVideo_reads_one_document (ctx ctx' : IServiceInvocationContext)
    (id : tID) (w w' : World) :
  let r := getVideo ctx id w in
  issued w r.2
    = (if isDocumentPath ("content/" +:+ id) then [DocGet ("content/" +:+ id)] else [])
  /\ firestore r.2 = firestore w
  /\ storage r.2 = storage w
  /\ muxAssets r.2 = muxAssets w
  /\ muxRequests r.2 = muxRequests w
  /\ (firestore w' !! ("content/" +:+ id) = firestore w !! ("content/" +:+ id) ->
      (getVideo ctx' id w').1 = r.1).
Proof.
  intros r. subst r.
  destruct (content_cases w id) as [[e E]|[[Hdoc E]|[d E]]].
  - rewrite (getVideo_refused ctx id w e E). cbn [fst snd].
    unfold isDocumentPath. rewrite E. splits; try reflexivity.
    + apply issued_record. by rewrite app_nil_r.
    + intros _. by rewrite (getVideo_refused ctx' id w' e E).
  - rewrite (getVideo_missing ctx id w Hdoc E). cbn [fst snd]. rewrite Hdoc.
    splits; try reflexivity.
    + by apply issued_record.
    + intros E'. rewrite E in E'. by rewrite (getVideo_missing ctx' id w' Hdoc E').
  - rewrite (getVideo_found ctx id w d E). cbn [fst snd].
    rewrite (found_isDocumentPath _ _ _ E). splits; try reflexivity.
    + by apply issued_record.
    + intros E'. rewrite E in E'. by rewrite (getVideo_found ctx' id w' d E').
Qed.

Lemma getVideo_reads_one_document_witness :
  firestore (set_muxAssets ∅ v1World) !! ("content/" +:+ "v1")
    = firestore v1World !! ("content/" +:+ "v1")
  /\ (getVideo mallory "v1" (set_muxAssets ∅ v1World)).1 = (getVideo alice "v1" v1World).1.
Proof.
  assert (H : firestore (set_muxAssets ∅ v1World) !! ("content/" +:+ "v1")
              = firestore v1World !! ("content/" +:+ "v1")) by reflexivity.
  split; [exact H |].
  pose proof (getVideo_reads_one_document alice mallory "v1" v1World
                (set_muxAssets ∅ v1World)) as (_ & _ & _ & _ & _ & Hsame).
  exact (Hsame H).
Defined.

(** X4: a fulfilled [deleteVideo] found the content record, had its DELETE
    accepted by the transcoder, and made exactly three calls, in this
    order: the fetch of [content/{id}], the DELETE of the asset URL made of
    the [assetID] of the record, the deletion of [content/id]. *)
Theorem deleteVideo_fulfilled (env : Env) (ctx : IServiceInvocationContext)
    (id : tID) (w : World) :
  let r := deleteVideo env ctx id w in
  r.1 = Fulfilled tt ->
  exists contentData,
    firestore w !! ("content/" +:+ id) = Some contentData
    /\ deleteFails env (assetURL (Js.template (Js.field contentData "assetID"))) = None
    /\ issued w r.2 =
         [DocGet ("content/" +:+ id);
          AxiosDelete (assetURL (Js.template (Js.field contentData "assetID"))) (muxAuth env);
          DocDelete "content/id"].
Proof.
  intros r. subst r.
  destruct (content_cases w id) as [[e E]|[[Hdoc E]|[d E]]].
  - rewrite (deleteVideo_refused env ctx id w e E). discriminate.
  - rewrite (deleteVideo_missing env ctx id w Hdoc E). discriminate.
  - rewrite (deleteVideo_found env ctx id w d E). cbv zeta.
    destruct (deleteFails env _) as [e|] eqn:F; cbn [fst snd]; [discriminate |].
    intros _. exists d. splits; try done.
    apply issued_record. unfold afterRemoteDelete.
    cbn [calls record set_firestore set_muxAssets]. by rewrite <- !app_assoc.
Qed.

Lemma deleteVideo_fulfilled_witness :
  (deleteVideo goodEnv alice "v1" v1World).1 = Fulfilled tt
  /\ exists contentData,
       firestore v1World !! ("content/" +:+ "v1") = Some contentData
       /\ issued v1World (deleteVideo goodEnv alice "v1" v1World).2 =
            [DocGet ("content/" +:+ "v1");
             AxiosDelete (assetURL (Js.template (Js.field contentData "assetID")))
               (muxAuth goodEnv);
             DocDelete "content/id"].
Proof.
  assert (H : (deleteVideo goodEnv alice "v1" v1World).1 = Fulfilled tt) by reflexivity.
  split; [exact H |].
  destruct (deleteVideo_fulfilled goodEnv alice "v1" v1World H) as (d & Hd & _ & Hi).
  exists d. split; [exact Hd | exact Hi].
Defined.

(** X5: after a fulfilled [deleteVideo], fetching the same id again is
    rejected as not found exactly when [content/{id}] names the document
    [content/id] (for an id without [/]: exactly when the id is the string
    [id]); for every other id the fetch gives the record it gave before the
    deletion.  The content record of the video named [id] is gone whichever
    video was deleted. *)
Theorem deleteVideo_then_getVideo (env : Env) (ctx ctx' : IServiceInvocationContext)
    (id : tID) (w : World) :
  (deleteVideo env ctx id w).1 = Fulfilled tt ->
  let w' := (deleteVideo env ctx id w).2 in
  let notFound := Rejected (ResourceNotFoundError "VideoContent" "videoContent" id) in
  ((getVideo ctx' id w').1 = notFound <-> docRef ("content/" +:+ id) = inr "content/id")
  /\ (hasSlash id = false -> ((getVideo ctx' id w').1 = notFound <-> id = "id"))
  /\ (docRef ("content/" +:+ id) <> inr "content/id" ->
      (getVideo ctx' id w').1 = (getVideo ctx id w).1)
  /\ (getVideo ctx' "id" w').1
       = Rejected (ResourceNotFoundError "VideoContent" "videoContent" "id").
Proof.
  intros Hok w' notFound. subst w' notFound.
  destruct (content_cases w id) as [[e E]|[[Hdoc E]|[d E]]].
  { rewrite (deleteVideo_refused env ctx id w e E) in Hok. discriminate Hok. }
  { rewrite (deleteVideo_missing env ctx id w Hdoc E) in Hok. discriminate Hok. }
  revert Hok. rewrite (deleteVideo_found env ctx id w d E). cbv zeta.
  destruct (deleteFails env _) as [e|]; [discriminate |]. intros _. cbn [snd].
  set (w3 := record (DocDelete "content/id") (afterRemoteDelete env id d w)).
  set (w4 := set_firestore (delete "content/id" (firestore w3)) w3).
  assert (Hfs : forall path, firestore w4 !! path =
            if bool_decide (docRef path = inr "content/id") then None
            else firestore w !! path).
  { intros path. apply (firestore_lookup_delete (firestore w) path). }
  assert (Hdoc : isDocumentPath ("content/" +:+ id) = true)
    by exact (found_isDocumentPath _ _ _ E).
  assert (Hgone : docRef ("content/" +:+ id) = inr "content/id" ->
            (getVideo ctx' id w4).1
            = Rejected (ResourceNotFoundError "VideoContent" "videoContent" id)).
  { intros Hid. rewrite getVideo_missing; [reflexivity | exact Hdoc |].
    rewrite Hfs. by rewrite bool_decide_eq_true_2. }
  assert (Hkept : docRef ("content/" +:+ id) <> inr "content/id" ->
            (getVideo ctx' id w4).1 = (getVideo ctx id w).1).
  { intros Hne. rewrite (getVideo_found ctx' id w4 d).
    - by rewrite (getVideo_found ctx id w d E).
    - rewrite Hfs. by rewrite bool_decide_eq_false_2. }
  assert (Hiff : (getVideo ctx' id w4).1
                 = Rejected (ResourceNotFoundError "VideoContent" "videoContent" id)
                 <-> docRef ("content/" +:+ id) = inr "content/id").
  { split; [| exact Hgone]. intros Hrej.
    destruct (decide (docRef ("content/" +:+ id) = inr "content/id")) as [|Hne]; [done |].
    rewrite (Hkept Hne), (getVideo_found ctx id w d E) in Hrej. discriminate Hrej. }
  splits.
  - exact Hiff.
  - intros Hs. rewrite Hiff. split.
    + intros Hid. destruct (decide (id = "")) as [->|Hne]; [discriminate Hid |].
      rewrite (docRef_plain_id id Hne Hs) in Hid. injection Hid as Hid.
      exact Hid.
    + intros ->. reflexivity.
  - exact Hkept.
  - rewrite getVideo_missing; [reflexivity | reflexivity |].
    rewrite Hfs. by rewrite bool_decide_eq_true_2.
Qed.

Lemma deleteVideo_then_getVideo_witness :
  (deleteVideo goodEnv alice "v1" v1World).1 = Fulfilled tt
  /\ docRef ("content/" +:+ "v1") <> inr "content/id"
  /\ (getVideo mallory "v1" (deleteVideo goodEnv alice "v1" v1World).2).1
     = (getVideo alice "v1" v1World).1.
Proof.
  assert (H : (deleteVideo goodEnv alice "v1" v1World).1 = Fulfilled tt) by reflexivity.
  assert (Hne : docRef ("content/" +:+ "v1") <> inr "content/id") by discriminate.
  split; [exact H |]. split; [exact Hne |].
  destruct (deleteVideo_then_getVideo goodEnv alice mallory "v1" v1World H)
    as (_ & _ & Hkept & _).
  exact (Hkept Hne).
Defined.


(** X11: [uploadVideo] writes nowhere but to its own storage object and the
    transcoder: whatever the outcome, after the lookup of the video the
    document store is unchanged, every other object of the store is
    unchanged, and transcoding requests are only ever added. *)
Theorem uploadVideo_frame (env : Env)
    (VideoDataService_getVideo : IServiceInvocationContext -> tID -> Async JsObject)
    (ctx : IServiceInvocationContext) (id : tID)
    (fs : ReadableStream) (mime : string) (w : World) :
  let w1 := (VideoDataService_getVideo ctx id w).2 in
  let r := uploadVideo env VideoDataService_getVideo ctx id fs mime w in
  firestore r.2 = firestore w1
  /\ (forall k, k <> storage_key (uploadFile ctx id) ->
        storage r.2 !! k = storage w1 !! k)
  /\ muxRequests w1 `prefix_of` muxRequests r.2.
Proof.
  intros w1 r. subst w1 r.
  destruct (VideoDataService_getVideo ctx id w) as [[video|e|] w1] eqn:Hget; cbn [snd].
  2:{ unfold uploadVideo, mbind, Async_bind, await. rewrite Hget. cbn [snd]. by splits. }
  2:{ unfold uploadVideo, mbind, Async_bind, await. rewrite Hget. cbn [snd]. by splits. }
  destruct (decide (Js.field video "author" = Js.str (userID (auth ctx))))
    as [Hauth|Hne].
  2:{ rewrite (uploadVideo_unauthorized env VideoDataService_getVideo ctx id fs mime w
                 video w1 Hget Hne). cbn [snd]. by splits. }
  rewrite (uploadVideo_authorized env VideoDataService_getVideo ctx id fs mime w video w1
             Hget Hauth).
  cbv zeta. unfold pipe.
  change (emits (createWriteStream env (uploadFile ctx id) mime))
    with (writeStreamEmits env (uploadFile ctx id)).
  cbn [target metadataContentType createWriteStream].
  case_bool_decide as Hfin; [| cbn [snd]; by splits].
  unfold makePublic.
  destruct (makePublicFails env (uploadFile ctx id)) as [e|].
  { cbn [snd firestore storage muxRequests record set_storage].
    splits; try done. intros k Hk. by rewrite lookup_insert_ne. }
  cbn [storage record set_storage]. rewrite lookup_insert_eq.
  unfold axios_post.
  destruct (postFails env _) as [e|];
    cbn [snd firestore storage muxRequests record set_storage set_muxRequests
         set_muxAssets];
    splits; try done;
    try (intros k Hk; by rewrite !lookup_insert_ne);
    by apply prefix_app_r.
Qed.

Lemma uploadVideo_frame_witness :
  ("meteor-videos", "masters/bob/v7") <> storage_key (uploadFile alice "v1")
  /\ storage (uploadVideo goodEnv sampleVideoData alice "v1" clip "video/mp4" v1World).2
       !! ("meteor-videos", "masters/bob/v7")
     = storage (sampleVideoData alice "v1" v1World).2 !! ("meteor-videos", "masters/bob/v7").
Proof.
  assert (Hk : ("meteor-videos", "masters/bob/v7") <> storage_key (uploadFile alice "v1"))
    by discriminate.
  split; [exact Hk |].
  pose proof (uploadVideo_frame goodEnv sampleVideoData alice "v1" clip "video/mp4" v1World)
    as (_ & Hs & _).
  exact (Hs _ Hk).
Defined.

(** ** Properties of [getChannels] *)

Import GetChannels.

Lemma getUser_resolves (fb : Firebase) (user : Js.value) :
  is_Some (getUser fb user) <-> resolves fb user.
Proof.
  unfold getUser, resolves. destruct user as [| |u].
  - split; [by intros [? ?] | by intros (? & ? & ?)].
  - split; [by intros [? ?] | by intros (? & ? & ?)].
  - case_bool_decide as Hin.
    + split; [intros _; by exists u | by eauto].
    + split; [by intros [? ?] |]. intros (u' & Hu & Hin'). by simplify_eq.
Qed.

Lemma getUser_None (fb : Firebase) (user : Js.value) :
  getUser fb user = None <-> ~ resolves fb user.
Proof.
  rewrite <- getUser_resolves. destruct (getUser fb user) as [u|].
  - split; [discriminate | intros H; destruct H; by eexists].
  - split; [intros _ [? ?]; discriminate | done].
Qed.





Example getChannels_sample :
  (getChannels sampleFirebase (askFor "u1") (signedIn "u2")).1
  = Returns [channel "u1" "first"; channel "u1" "third"].
Proof. reflexivity. Qed.

Example getChannels_crowded :
  exists channels,
    (getChannels (crowded 150) (askFor "u1") (signedIn "u1")).1 = Returns channels
    /\ length channels = 100.
Proof. eexists. split; reflexivity. Qed.

(** On a data object and services that answer, the handler in full is
    [getChannels]. *)
Lemma getChannelsWith_noFaults (fb : Firebase) (data : JsObject)
    (context : CallableContext) :
  getChannelsWith noFaults fb (object_data data) context
  = (completion (getChannels fb data context).1, (getChannels fb data context).2).
Proof.
  unfold getChannelsWith, getChannels. cbn [getUserRejected queryRejected noFaults].
  destruct (auth context); [| reflexivity].
  destruct (getUser fb (Js.field data "user")); reflexivity.
Qed.

(** C7 as stated does not hold.  A call without authentication for a user
    that does not exist fails with [unauthenticated], not
    [invalid-argument]; an authenticated call that carries no data fails
    with a [TypeError], which is neither of the two categories; and a lookup
    rejected by the authentication service is reported as [invalid-argument]
    although the user exists. *)
Lemma getChannels_claimed_failures_refuted :
  ~ (raises "invalid-argument"
       (getChannelsWith noFaults sampleFirebase (object_data (askFor "ghost")) anonymous)
     <-> ~ resolves sampleFirebase (Js.field (askFor "ghost") "user"))
  /\ ((getChannelsWith noFaults sampleFirebase no_data (signedIn "u1")).1
        = Raised (TypeError "Cannot read property 'user' of null")
      /\ ~ raises "unauthenticated"
             (getChannelsWith noFaults sampleFirebase no_data (signedIn "u1"))
      /\ ~ raises "invalid-argument"
             (getChannelsWith noFaults sampleFirebase no_data (signedIn "u1")))
  /\ (resolves sampleFirebase (Js.field (askFor "u1") "user")
      /\ raises "invalid-argument"
           (getChannelsWith {| getUserRejected := true; queryRejected := None |}
              sampleFirebase (object_data (askFor "u1")) (signedIn "u1"))).
Proof.
  splits.
  - intros [_ H].
    assert (Hno : ~ resolves sampleFirebase (Js.field (askFor "ghost") "user")).
    { apply getUser_None. reflexivity. }
    destruct (H Hno) as [m Hm]. discriminate Hm.
  - reflexivity.
  - intros [m Hm]. discriminate Hm.
  - intros [m Hm]. discriminate Hm.
  - exists "u1". split; [reflexivity |]. apply (bool_decide_unpack _). reflexivity.
  - eexists. reflexivity.
Qed.

(** C7, amended: [getChannels] fails with [unauthenticated] exactly when the
    call has no authentication context, and with [invalid-argument] exactly
    when the call is authenticated, carries a data object and the lookup of
    the supplied user identifier is rejected, as it is whenever the
    identifier does not resolve to an existing user.  These two are the only
    categorized errors it raises; its other failures are the [TypeError] of
    an authenticated call without data and the error of a rejected query,
    neither of them caught.  Each error goes to the caller at once: no
    request is made before [unauthenticated] or the [TypeError], the one
    failed lookup of the user is the only request before
    [invalid-argument], and the lookup and the query are each made once
    before the error of the query. *)
Theorem getChannels_failures (faults : Faults) (fb : Firebase) (data : CallData)
    (context : CallableContext) :
  let r := getChannelsWith faults fb data context in
  (raises "unauthenticated" r <-> auth context = None)
  /\ (raises "invalid-argument" r <->
      is_Some (auth context)
      /\ exists fields, data = object_data fields
           /\ (getUserRejected faults = true \/ ~ resolves fb (Js.field fields "user")))
  /\ (forall c, raises c r -> c = "unauthenticated" \/ c = "invalid-argument")
  /\ ((exists m, r.1 = Raised (TypeError m)) <->
      is_Some (auth context) /\ data = no_data)
  /\ ((exists m, r.1 = Raised (QueryError m)) <->
      is_Some (auth context)
      /\ exists fields, data = object_data fields
           /\ getUserRejected faults = false
           /\ resolves fb (Js.field fields "user")
           /\ is_Some (queryRejected faults))
  /\ (raises "unauthenticated" r \/ (exists m, r.1 = Raised (TypeError m)) -> r.2 = [])
  /\ (forall fields, data = object_data fields ->
        (raises "invalid-argument" r -> r.2 = [GetUser (Js.field fields "user")])
        /\ ((exists m, r.1 = Raised (QueryError m)) ->
            r.2 = [GetUser (Js.field fields "user");
                   QueryGet (limit 100 (where_eq "owner" (Js.field fields "user")
                                          (collection "channels")))])).
Proof.
  intros r. subst r. unfold getChannelsWith, raises.
  destruct (auth context) as [uid|] eqn:Hauth.
  2:{ cbn [fst snd]. splits.
      - split; [done | intros _; by eexists].
      - split; [by intros [m Hm] | by intros [[? ?] _]].
      - intros c [m Hm]. left. by injection Hm as <- _.
      - split; [by intros [m Hm] | by intros [[? ?] _]].
      - split; [by intros [m Hm] | by intros [[? ?] _]].
      - done.
      - intros fields _. split; [by intros [m Hm] | by intros [m Hm]]. }
  destruct data as [|fields].
  { cbn [fst snd]. splits.
    - split; [by intros [m Hm] | done].
    - split; [by intros [m Hm] | by intros [_ (f & Hf & _)]].
    - by intros c [m Hm].
    - split; [done | intros _; by eexists].
    - split; [by intros [m Hm] | by intros [_ (f & Hf & _)]].
    - done.
    - by intros f Hf. }
  cbv zeta.
  destruct (getUserRejected faults) eqn:Hrej.
  { cbn [fst snd]. splits.
    - split; [by intros [m Hm] | done].
    - split; [intros _; split; [done | exists fields; by eauto] | intros _; by eexists].
    - intros c [m Hm]. right. by injection Hm as <- _.
    - split; [by intros [m Hm] | by intros [_ ?]].
    - split; [by intros [m Hm] |].
      intros [_ (f & Hf & Hr & _)]. discriminate Hr.
    - intros [[m Hm]|[m Hm]]; discriminate Hm.
    - intros f Hf. injection Hf as <-. split; [done | by intros [m Hm]]. }
  destruct (getUser fb (Js.field fields "user")) as [u|] eqn:Hu.
  2:{ assert (Hno : ~ resolves fb (Js.field fields "user")) by by apply getUser_None.
      cbn [fst snd]. splits.
      - split; [by intros [m Hm] | done].
      - split; [intros _; split; [done | exists fields; by eauto] | intros _; by eexists].
      - intros c [m Hm]. right. by injection Hm as <- _.
      - split; [by intros [m Hm] | by intros [_ ?]].
      - split; [by intros [m Hm] |].
        intros [_ (f & Hf & _ & Hr & _)]. injection Hf as <-. done.
      - intros [[m Hm]|[m Hm]]; discriminate Hm.
      - intros f Hf. injection Hf as <-. split; [done | by intros [m Hm]]. }
  assert (Hres : resolves fb (Js.field fields "user")) by (apply getUser_resolves; eauto).
  destruct (queryRejected faults) as [qm|] eqn:Hq; cbn [fst snd]; splits.
  - split; [by intros [m Hm] | done].
  - split; [by intros [m Hm] |].
    intros [_ (f & Hf & [Hr|Hn])]; [discriminate Hr |]. injection Hf as <-. done.
  - by intros c [m Hm].
  - split; [by intros [m Hm] | by intros [_ ?]].
  - split; [| intros _; by eexists].
    intros _. split; [done |]. exists fields. splits; by eauto.
  - intros [[m Hm]|[m Hm]]; discriminate Hm.
  - intros f Hf. injection Hf as <-. split; [by intros [m Hm] | done].
  - split; [by intros [m Hm] | done].
  - split; [by intros [m Hm] |].
    intros [_ (f & Hf & [Hr|Hn])]; [discriminate Hr |]. injection Hf as <-. done.
  - by intros c [m Hm].
  - split; [by intros [m Hm] | by intros [_ ?]].
  - split; [by intros [m Hm] |].
    intros [_ (f & _ & _ & _ & [? ?])]. done.
  - intros [[m Hm]|[m Hm]]; discriminate Hm.
  - intros f Hf. split; [by intros [m Hm] | by intros [m Hm]].
Qed.

Lemma getChannels_failures_witness :
  raises "invalid-argument"
    (getChannelsWith noFaults sampleFirebase (object_data (askFor "ghost")) (signedIn "u1"))
  /\ raises "unauthenticated"
       (getChannelsWith noFaults sampleFirebase (object_data (askFor "ghost")) anonymous)
  /\ (getChannelsWith noFaults sampleFirebase (object_data (askFor "ghost")) (signedIn "u1")).2
       = [GetUser (Js.str "ghost")]
  /\ (getChannelsWith noFaults sampleFirebase (object_data (askFor "ghost")) anonymous).2 = [].
Proof.
  pose proof (getChannels_failures noFaults sampleFirebase (object_data (askFor "ghost"))
                (signedIn "u1")) as (_ & Hinv & _ & _ & _ & _ & Hreq).
  pose proof (getChannels_failures noFaults sampleFirebase (object_data (askFor "ghost"))
                anonymous) as (Hanon & _ & _ & _ & _ & Hnone & _).
  assert (Hno : ~ resolves sampleFirebase (Js.field (askFor "ghost") "user")).
  { apply getUser_None. reflexivity. }
  assert (H1 : raises "invalid-argument"
                 (getChannelsWith noFaults sampleFirebase (object_data (askFor "ghost"))
                    (signedIn "u1"))).
  { apply Hinv. split; [by eexists |]. exists (askFor "ghost"). split; [reflexivity |].
    right. exact Hno. }
  assert (H2 : raises "unauthenticated"
                 (getChannelsWith noFaults sampleFirebase (object_data (askFor "ghost"))
                    anonymous)).
  { apply Hanon. reflexivity. }
  split; [exact H1 |]. split; [exact H2 |].
  split; [exact (proj1 (Hreq _ eq_refl) H1) | exact (Hnone (or_introl H2))].
Defined.

(** *** Further properties of [getChannels] *)




(** X16: an authenticated call whose data carries no [user] field fails with
    [invalid-argument], whatever the accounts of the service: the one
    request made is the lookup of the user [undefined]. *)
Theorem getChannels_without_user (fb : Firebase) (data : JsObject)
    (context : CallableContext) :
  is_Some (auth context) ->
  data !! "user" = None ->
  let r := getChannels fb data context in
  fails_with "invalid-argument" r
  /\ r.2 = [GetUser Js.undefined].
Proof.
  intros [uid Hauth] Hno r. subst r. unfold getChannels, fails_with, Js.field.
  rewrite Hauth, Hno. cbn [default getUser fst snd]. split; [by eexists | reflexivity].
Qed.

Lemma getChannels_without_user_witness :
  is_Some (auth (signedIn "u1"))
  /\ (∅ : JsObject) !! "user" = None
  /\ fails_with "invalid-argument" (getChannels sampleFirebase ∅ (signedIn "u1"))
  /\ (getChannels sampleFirebase ∅ (signedIn "u1")).2 = [GetUser Js.undefined].
Proof.
  assert (Hauth : is_Some (auth (signedIn "u1"))) by (eexists; reflexivity).
  assert (Hno : (∅ : JsObject) !! "user" = None) by reflexivity.
  split; [exact Hauth |]. split; [exact Hno |].
  exact (getChannels_without_user sampleFirebase ∅ (signedIn "u1") Hauth Hno).
Defined.
